(** * HomeKit Sunshade (ESP32): motion and calibration core

    A shallow embedding of [src/main/main.c]: the relay interlock, the
    movement task, the calibration state machine, the HomeKit setters and
    the button callbacks, followed by the properties established for them.

    Conventions of the embedding.
    - The C statics ([pos_f], [full_travel_ms], [calib_state], the
      characteristics, ...) are the fields of one record [state]; every C
      function that touches them is a state transformer [cmd].
    - [float] is IEEE 754 binary32, computed with the Standard Library's
      [SpecFloat] operations at precision 24 and maximal exponent 128.
    - [uint8_t], [uint32_t] and [int64_t] values are [Z]; the one narrowing
      cast of the program, [(uint32_t)(elapsed / 1000)], is written with
      its reduction modulo [2^32].
    - A relay output is recorded by the logical value handed to
      [relay_write] ([true] = energized). The electrical level
      [on ? RELAY_ACTIVE_LEVEL : !RELAY_ACTIVE_LEVEL] is a Kconfig matter.
    - Two ghost fields keep what the program does to the outside world:
      [gpio_trace], the pair of relay outputs after each [relay_write],
      and [notified], the calls of [homekit_characteristic_notify]; both
      newest first.
    - The movement task is a FreeRTOS task. It is embedded as a resumable
      computation: [move_task_slice] runs it from where it sleeps to its
      next [vTaskDelay] (or to its end). Setters, button callbacks and task
      slices are interleaved as whole steps by [run]; [conc_run] interleaves
      movement commands and movement tasks statement by statement. *)

From Stdlib Require Import ZArith List Bool Lia.
From Stdlib Require Import Floats.SpecFloat.
Import ListNotations.
Open Scope Z_scope.

(** ** binary32 arithmetic *)

Module F32.

Definition prec : Z := 24.
Definition emax : Z := 128.

Definition t : Type := spec_float.

(** Conversion of an integer to [float] (round to nearest, ties to even). *)
Definition of_Z (z : Z) : t := binary_normalize prec emax z 0 false.

(** The literal [0.5f]. *)
Definition half : t := binary_normalize prec emax 1 (-1) false.

Definition add : t -> t -> t := SFadd prec emax.
Definition sub : t -> t -> t := SFsub prec emax.
Definition mul : t -> t -> t := SFmul prec emax.
Definition div : t -> t -> t := SFdiv prec emax.
Definition ltb : t -> t -> bool := SFltb.

(** Truncation toward zero, the integer part taken by a C cast. *)
Definition trunc (x : t) : Z :=
  match x with
  | S754_finite s m e => cond_Zopp s (Z.shiftl (Zpos m) e)
  | _ => 0
  end.

(** [(uint8_t)x]. C defines the cast when the integer part is in
    [0, 255]; elsewhere the embedding keeps the low eight bits. *)
Definition to_uint8 (x : t) : Z := trunc x mod 256.

End F32.

(** ** Constants of the program *)

Definition FULL_TRAVEL_MS_DEFAULT : Z := 18000.
Definition MOVE_TICK_MS : Z := 100.
Definition MID_POSITION : Z := 50.

(** ** Types *)

Inductive gpio_num_t := RELAY_OPEN_GPIO | RELAY_CLOSE_GPIO.

Inductive pix_state_t :=
| PIX_IDLE | PIX_OPENING | PIX_CLOSING | PIX_STOPPED | PIX_CALIBRATING
| PIX_WIFI_WAIT.

Inductive calib_state_t := CAL_IDLE | CAL_ARMED | CAL_RUNNING.

Inductive esp_err_t :=
| ESP_OK | ESP_FAIL | ESP_ERR_INVALID_STATE | ESP_ERR_NVS_NOT_FOUND.

(** The three gestures the callbacks name; [button_event_other] stands for
    every further value of the button component's enumeration. *)
Inductive button_event_t :=
| button_event_single_press | button_event_double_press
| button_event_long_press | button_event_other.

(** [homekit_value_t]: a format tag and the members the program reads. *)
Inductive homekit_format_t :=
| homekit_format_bool | homekit_format_uint8 | homekit_format_other.

Record homekit_value_t := mk_value {
  format : homekit_format_t;
  bool_value : bool;
  uint8_value : Z
}.

Definition HOMEKIT_BOOL (b : bool) : homekit_value_t :=
  mk_value homekit_format_bool b 0.
Definition HOMEKIT_UINT8 (n : Z) : homekit_value_t :=
  mk_value homekit_format_uint8 false n.

Inductive characteristic_t :=
| CH_current_position | CH_target_position | CH_position_state
| CH_hold_position | CH_recalibrate_switch.

(** Where the movement task stands when it is not running: not yet
    started, or asleep in the [vTaskDelay] of one of its two loops, with
    the [step] it computed on entry. *)
Inductive move_pc :=
| MOVE_ENTRY
| MOVE_OPENING (step : F32.t)
| MOVE_CLOSING (step : F32.t).

Record move_task_t := mk_task { tk_tgt : Z; tk_pc : move_pc }.

Definition format_eqb (a b : homekit_format_t) : bool :=
  match a, b with
  | homekit_format_bool, homekit_format_bool
  | homekit_format_uint8, homekit_format_uint8
  | homekit_format_other, homekit_format_other => true
  | _, _ => false
  end.

Definition calib_eqb (a b : calib_state_t) : bool :=
  match a, b with
  | CAL_IDLE, CAL_IDLE | CAL_ARMED, CAL_ARMED | CAL_RUNNING, CAL_RUNNING => true
  | _, _ => false
  end.

Definition err_eqb (a b : esp_err_t) : bool :=
  match a, b with
  | ESP_OK, ESP_OK | ESP_FAIL, ESP_FAIL
  | ESP_ERR_INVALID_STATE, ESP_ERR_INVALID_STATE
  | ESP_ERR_NVS_NOT_FOUND, ESP_ERR_NVS_NOT_FOUND => true
  | _, _ => false
  end.

(** ** The state *)

Record state := mk_state {
  relay_open : bool;
  relay_close : bool;
  gpio_trace : list (bool * bool);
  pix_state : pix_state_t;
  move_task_handle : option move_task_t;
  pos_f : F32.t;
  full_travel_ms : Z;
  current_position : homekit_value_t;
  target_position : homekit_value_t;
  position_state : homekit_value_t;
  hold_position : homekit_value_t;
  recalibrate_switch : homekit_value_t;
  calib_state : calib_state_t;
  calib_start_us : Z;
  nvs_full_ms : option Z;
  notified : list (characteristic_t * homekit_value_t);
  halted : bool
}.

Definition set_relay_open (v : bool) (s : state) : state :=
  mk_state v (relay_close s) (gpio_trace s) (pix_state s)
    (move_task_handle s) (pos_f s) (full_travel_ms s) (current_position s)
    (target_position s) (position_state s) (hold_position s)
    (recalibrate_switch s) (calib_state s) (calib_start_us s) (nvs_full_ms s)
    (notified s) (halted s).

Definition set_relay_close (v : bool) (s : state) : state :=
  mk_state (relay_open s) v (gpio_trace s) (pix_state s)
    (move_task_handle s) (pos_f s) (full_travel_ms s) (current_position s)
    (target_position s) (position_state s) (hold_position s)
    (recalibrate_switch s) (calib_state s) (calib_start_us s) (nvs_full_ms s)
    (notified s) (halted s).

Definition set_gpio_trace (v : list (bool * bool)) (s : state) : state :=
  mk_state (relay_open s) (relay_close s) v (pix_state s)
    (move_task_handle s) (pos_f s) (full_travel_ms s) (current_position s)
    (target_position s) (position_state s) (hold_position s)
    (recalibrate_switch s) (calib_state s) (calib_start_us s) (nvs_full_ms s)
    (notified s) (halted s).

Definition set_pix_state (v : pix_state_t) (s : state) : state :=
  mk_state (relay_open s) (relay_close s) (gpio_trace s) v
    (move_task_handle s) (pos_f s) (full_travel_ms s) (current_position s)
    (target_position s) (position_state s) (hold_position s)
    (recalibrate_switch s) (calib_state s) (calib_start_us s) (nvs_full_ms s)
    (notified s) (halted s).

Definition set_move_task_handle (v : option move_task_t) (s : state) : state :=
  mk_state (relay_open s) (relay_close s) (gpio_trace s) (pix_state s)
    v (pos_f s) (full_travel_ms s) (current_position s)
    (target_position s) (position_state s) (hold_position s)
    (recalibrate_switch s) (calib_state s) (calib_start_us s) (nvs_full_ms s)
    (notified s) (halted s).

Definition set_pos_f (v : F32.t) (s : state) : state :=
  mk_state (relay_open s) (relay_close s) (gpio_trace s) (pix_state s)
    (move_task_handle s) v (full_travel_ms s) (current_position s)
    (target_position s) (position_state s) (hold_position s)
    (recalibrate_switch s) (calib_state s) (calib_start_us s) (nvs_full_ms s)
    (notified s) (halted s).

Definition set_full_travel_ms (v : Z) (s : state) : state :=
  mk_state (relay_open s) (relay_close s) (gpio_trace s) (pix_state s)
    (move_task_handle s) (pos_f s) v (current_position s)
    (target_position s) (position_state s) (hold_position s)
    (recalibrate_switch s) (calib_state s) (calib_start_us s) (nvs_full_ms s)
    (notified s) (halted s).

Definition set_current_position (v : homekit_value_t) (s : state) : state :=
  mk_state (relay_open s) (relay_close s) (gpio_trace s) (pix_state s)
    (move_task_handle s) (pos_f s) (full_travel_ms s) v
    (target_position s) (position_state s) (hold_position s)
    (recalibrate_switch s) (calib_state s) (calib_start_us s) (nvs_full_ms s)
    (notified s) (halted s).

Definition set_target_position (v : homekit_value_t) (s : state) : state :=
  mk_state (relay_open s) (relay_close s) (gpio_trace s) (pix_state s)
    (move_task_handle s) (pos_f s) (full_travel_ms s) (current_position s)
    v (position_state s) (hold_position s)
    (recalibrate_switch s) (calib_state s) (calib_start_us s) (nvs_full_ms s)
    (notified s) (halted s).

Definition set_position_state (v : homekit_value_t) (s : state) : state :=
  mk_state (relay_open s) (relay_close s) (gpio_trace s) (pix_state s)
    (move_task_handle s) (pos_f s) (full_travel_ms s) (current_position s)
    (target_position s) v (hold_position s)
    (recalibrate_switch s) (calib_state s) (calib_start_us s) (nvs_full_ms s)
    (notified s) (halted s).

Definition set_hold_position (v : homekit_value_t) (s : state) : state :=
  mk_state (relay_open s) (relay_close s) (gpio_trace s) (pix_state s)
    (move_task_handle s) (pos_f s) (full_travel_ms s) (current_position s)
    (target_position s) (position_state s) v
    (recalibrate_switch s) (calib_state s) (calib_start_us s) (nvs_full_ms s)
    (notified s) (halted s).

Definition set_recalibrate_switch (v : homekit_value_t) (s : state) : state :=
  mk_state (relay_open s) (relay_close s) (gpio_trace s) (pix_state s)
    (move_task_handle s) (pos_f s) (full_travel_ms s) (current_position s)
    (target_position s) (position_state s) (hold_position s)
    v (calib_state s) (calib_start_us s) (nvs_full_ms s)
    (notified s) (halted s).

Definition set_calib_state (v : calib_state_t) (s : state) : state :=
  mk_state (relay_open s) (relay_close s) (gpio_trace s) (pix_state s)
    (move_task_handle s) (pos_f s) (full_travel_ms s) (current_position s)
    (target_position s) (position_state s) (hold_position s)
    (recalibrate_switch s) v (calib_start_us s) (nvs_full_ms s)
    (notified s) (halted s).

Definition set_calib_start_us (v : Z) (s : state) : state :=
  mk_state (relay_open s) (relay_close s) (gpio_trace s) (pix_state s)
    (move_task_handle s) (pos_f s) (full_travel_ms s) (current_position s)
    (target_position s) (position_state s) (hold_position s)
    (recalibrate_switch s) (calib_state s) v (nvs_full_ms s)
    (notified s) (halted s).

Definition set_nvs_full_ms (v : option Z) (s : state) : state :=
  mk_state (relay_open s) (relay_close s) (gpio_trace s) (pix_state s)
    (move_task_handle s) (pos_f s) (full_travel_ms s) (current_position s)
    (target_position s) (position_state s) (hold_position s)
    (recalibrate_switch s) (calib_state s) (calib_start_us s) v
    (notified s) (halted s).

Definition set_notified (v : list (characteristic_t * homekit_value_t))
  (s : state) : state :=
  mk_state (relay_open s) (relay_close s) (gpio_trace s) (pix_state s)
    (move_task_handle s) (pos_f s) (full_travel_ms s) (current_position s)
    (target_position s) (position_state s) (hold_position s)
    (recalibrate_switch s) (calib_state s) (calib_start_us s) (nvs_full_ms s)
    v (halted s).

Definition set_halted (v : bool) (s : state) : state :=
  mk_state (relay_open s) (relay_close s) (gpio_trace s) (pix_state s)
    (move_task_handle s) (pos_f s) (full_travel_ms s) (current_position s)
    (target_position s) (position_state s) (hold_position s)
    (recalibrate_switch s) (calib_state s) (calib_start_us s) (nvs_full_ms s)
    (notified s) v.

(** ** State transformers *)

Definition cmd : Type := state -> state.

Definition skip : cmd := fun s => s.
Definition seq (c1 c2 : cmd) : cmd := fun s => c2 (c1 s).

Declare Scope cmd_scope.
Delimit Scope cmd_scope with cmd.
Bind Scope cmd_scope with cmd.
Notation "c1 ;; c2" := (seq c1 c2)
  (at level 61, right associativity) : cmd_scope.

(** The value a characteristic holds. *)
Definition value_of (ch : characteristic_t) (s : state) : homekit_value_t :=
  match ch with
  | CH_current_position => current_position s
  | CH_target_position => target_position s
  | CH_position_state => position_state s
  | CH_hold_position => hold_position s
  | CH_recalibrate_switch => recalibrate_switch s
  end.

(** [homekit_characteristic_notify(&ch, ch.value)]. *)
Definition homekit_characteristic_notify (ch : characteristic_t) : cmd :=
  fun s => set_notified ((ch, value_of ch s) :: notified s) s.

(** ** Relays (with interlock) *)

Definition relay_write (pin : gpio_num_t) (on : bool) : cmd :=
  fun s =>
    let s1 := match pin with
              | RELAY_OPEN_GPIO => set_relay_open on s
              | RELAY_CLOSE_GPIO => set_relay_close on s
              end in
    set_gpio_trace ((relay_open s1, relay_close s1) :: gpio_trace s1) s1.

Definition motor_all_off : cmd :=
  relay_write RELAY_OPEN_GPIO false ;; relay_write RELAY_CLOSE_GPIO false.

Definition motor_drive_open (on : bool) : cmd :=
  (if on then relay_write RELAY_CLOSE_GPIO false else skip) ;;
  relay_write RELAY_OPEN_GPIO on.

Definition motor_drive_close (on : bool) : cmd :=
  (if on then relay_write RELAY_OPEN_GPIO false else skip) ;;
  relay_write RELAY_CLOSE_GPIO on.

Definition gpio_init_motor : cmd := motor_all_off.

(** ** NVS helpers (calibration storage)

    The NVS library is an external collaborator. Its one record of
    interest, key ["full_ms"] of namespace ["sunshade"], is the field
    [nvs_full_ms]; what each of its calls answers is given by an [nvs_io]:
    [ESP_OK] lets the call do its work, any other code makes it fail with
    that code. *)

Record nvs_io := mk_nvs_io {
  nvs_open_result : esp_err_t;
  nvs_get_result : esp_err_t;
  nvs_set_result : esp_err_t;
  nvs_commit_result : esp_err_t
}.

Definition nvs_healthy : nvs_io := mk_nvs_io ESP_OK ESP_OK ESP_OK ESP_OK.

(** [nvs_get_u32(nvh, "full_ms", &v)]: the error code and the new [v]. *)
Definition nvs_get_u32 (io : nvs_io) (s : state) (v : Z) : esp_err_t * Z :=
  if err_eqb (nvs_get_result io) ESP_OK then
    match nvs_full_ms s with
    | Some x => (ESP_OK, x)
    | None => (ESP_ERR_NVS_NOT_FOUND, v)
    end
  else (nvs_get_result io, v).

(** [calib_load(&out_ms)]: the error code and the new [*out_ms]. *)
Definition calib_load (io : nvs_io) (s : state) (out_ms : Z)
  : esp_err_t * Z :=
  let err := nvs_open_result io in
  if negb (err_eqb err ESP_OK) then (err, out_ms)
  else
    let '(err, v) := nvs_get_u32 io s 0 in
    if err_eqb err ESP_OK && (3000 <=? v) && (v <=? 120000)
    then (ESP_OK, v)
    else (ESP_ERR_INVALID_STATE, out_ms).

(** [calib_save(ms)]. [ESP_RETURN_ON_ERROR] returns the error of a failed
    open (the caller drops it); [ESP_ERROR_CHECK] aborts the firmware,
    which the embedding records in [halted]. *)
Definition calib_save (io : nvs_io) (ms : Z) : cmd :=
  fun s =>
    if negb (err_eqb (nvs_open_result io) ESP_OK) then s
    else if negb (err_eqb (nvs_set_result io) ESP_OK) then set_halted true s
    else
      let s := set_nvs_full_ms (Some ms) s in
      if negb (err_eqb (nvs_commit_result io) ESP_OK) then set_halted true s
      else s.

(** ** Movement task *)

(** [step], in percent per tick. *)
Definition move_step (full_ms : Z) : F32.t :=
  F32.div (F32.mul (F32.of_Z 100) (F32.of_Z MOVE_TICK_MS)) (F32.of_Z full_ms).

(** [if (cp != current_position.value.uint8_value) { ... notify ... }] *)
Definition report_current_position (cp : Z) : cmd :=
  fun s =>
    if negb (cp =? uint8_value (current_position s)) then
      (set_current_position (HOMEKIT_UINT8 cp) ;;
       homekit_characteristic_notify CH_current_position)%cmd s
    else s.

(** The task goes to sleep in [vTaskDelay] at program point [pc]. *)
Definition suspend (tgt : Z) (pc : move_pc) : cmd :=
  set_move_task_handle (Some (mk_task tgt pc)).

(** The code after the two loops. *)
Definition move_task_finish (tgt : Z) : cmd :=
  motor_all_off ;;
  set_position_state (HOMEKIT_UINT8 2) ;;
  homekit_characteristic_notify CH_position_state ;;
  set_pos_f (F32.of_Z tgt) ;;
  report_current_position tgt ;;
  set_pix_state (if (tgt =? 0) || (tgt =? 100) then PIX_IDLE else PIX_STOPPED) ;;
  set_move_task_handle None.

Definition opening_cond (tgt : Z) (s : state) : bool :=
  F32.ltb (pos_f s) (F32.of_Z tgt) && (uint8_value (position_state s) =? 1).

Definition opening_body (step : F32.t) : cmd :=
  fun s =>
    let p := F32.add (pos_f s) step in
    let p := if F32.ltb (F32.of_Z 100) p then F32.of_Z 100 else p in
    (set_pos_f p ;;
     report_current_position (F32.to_uint8 (F32.add p F32.half)))%cmd s.

Definition closing_cond (tgt : Z) (s : state) : bool :=
  F32.ltb (F32.of_Z tgt) (pos_f s) && (uint8_value (position_state s) =? 0).

Definition closing_body (step : F32.t) : cmd :=
  fun s =>
    let p := F32.sub (pos_f s) step in
    let p := if F32.ltb p (F32.of_Z 0) then F32.of_Z 0 else p in
    (set_pos_f p ;;
     report_current_position (F32.to_uint8 (F32.add p F32.half)))%cmd s.

(** From the test of the opening loop to the next [vTaskDelay], or
    through the end of the task when the test fails. *)
Definition opening_loop (tgt : Z) (step : F32.t) : cmd :=
  fun s =>
    if opening_cond tgt s
    then (opening_body step ;; suspend tgt (MOVE_OPENING step))%cmd s
    else move_task_finish tgt s.

Definition closing_loop (tgt : Z) (step : F32.t) : cmd :=
  fun s =>
    if closing_cond tgt s
    then (closing_body step ;; suspend tgt (MOVE_CLOSING step))%cmd s
    else move_task_finish tgt s.

(** [move_task] from its first statement. *)
Definition move_task (tgt : Z) : cmd :=
  fun s =>
    let step := move_step (full_travel_ms s) in
    if tgt >? F32.to_uint8 (pos_f s) then
      (set_position_state (HOMEKIT_UINT8 1) ;;
       homekit_characteristic_notify CH_position_state ;;
       set_pix_state PIX_OPENING ;;
       motor_drive_open true ;;
       opening_loop tgt step)%cmd s
    else if tgt <? F32.to_uint8 (pos_f s) then
      (set_position_state (HOMEKIT_UINT8 0) ;;
       homekit_characteristic_notify CH_position_state ;;
       set_pix_state PIX_CLOSING ;;
       motor_drive_close true ;;
       closing_loop tgt step)%cmd s
    else move_task_finish tgt s.

(** The task runs from where it stands to its next [vTaskDelay] or end. *)
Definition move_task_resume (tk : move_task_t) : cmd :=
  match tk_pc tk with
  | MOVE_ENTRY => move_task (tk_tgt tk)
  | MOVE_OPENING step => opening_loop (tk_tgt tk) step
  | MOVE_CLOSING step => closing_loop (tk_tgt tk) step
  end.

(** One turn of the scheduler for the movement task, if there is one. *)
Definition move_task_slice : cmd :=
  fun s =>
    match move_task_handle s with
    | Some tk => move_task_resume tk s
    | None => s
    end.

(** [vTaskDelete(move_task_handle); move_task_handle = NULL] under
    [if (move_task_handle)]. *)
Definition delete_move_task : cmd :=
  fun s =>
    match move_task_handle s with
    | Some _ => set_move_task_handle None s
    | None => s
    end.

(** [xTaskCreate(move_task, "move", ..., &move_task_handle)]; the program
    does not look at its result, and the creation is taken to succeed. *)
Definition xTaskCreate_move_task (target : Z) : cmd :=
  set_move_task_handle (Some (mk_task target MOVE_ENTRY)).

Definition start_move_to (target : Z) : cmd :=
  delete_move_task ;;
  motor_all_off ;;
  fun s =>
    if target =? F32.to_uint8 (pos_f s) then
      (set_position_state (HOMEKIT_UINT8 2) ;;
       homekit_characteristic_notify CH_position_state ;;
       set_pix_state PIX_STOPPED)%cmd s
    else xTaskCreate_move_task target s.

(** [start_move_open], [start_move_close] and [start_move_mid] share
    this shape, at 100, 0 and [MID_POSITION]. *)
Definition notify_target_and_move (t : Z) : cmd :=
  (fun s =>
     if negb (uint8_value (target_position s) =? t) then
       (set_target_position (HOMEKIT_UINT8 t) ;;
        homekit_characteristic_notify CH_target_position)%cmd s
     else s) ;;
  start_move_to t.

Definition start_move_open : cmd := notify_target_and_move 100.
Definition start_move_close : cmd := notify_target_and_move 0.
Definition start_move_mid : cmd := notify_target_and_move MID_POSITION.

(** ** HomeKit setters *)

Definition target_position_set (value : homekit_value_t) : cmd :=
  fun s =>
    if negb (format_eqb (format value) homekit_format_uint8) then s
    else
      let t := uint8_value value in
      (set_target_position value ;;
       start_move_to t ;;
       homekit_characteristic_notify CH_target_position)%cmd s.

Definition hold_position_set (value : homekit_value_t) : cmd :=
  fun s =>
    if negb (format_eqb (format value) homekit_format_bool) then s
    else
      ((if bool_value value then
          motor_all_off ;;
          set_position_state (HOMEKIT_UINT8 2) ;;
          homekit_characteristic_notify CH_position_state ;;
          set_pix_state PIX_STOPPED
        else skip) ;;
       set_hold_position (HOMEKIT_BOOL false) ;;
       homekit_characteristic_notify CH_hold_position)%cmd s.

(** ** Calibration state machine *)

Definition calib_enter : cmd :=
  fun s =>
    if negb (calib_eqb (calib_state s) CAL_IDLE) then s
    else
      (motor_all_off ;;
       set_calib_state CAL_ARMED ;;
       set_pix_state PIX_CALIBRATING)%cmd s.

Definition calib_cancel : cmd :=
  fun s =>
    if calib_eqb (calib_state s) CAL_IDLE then s
    else
      (motor_all_off ;;
       set_calib_state CAL_IDLE ;;
       set_pix_state PIX_IDLE)%cmd s.

(** [now] is what [esp_timer_get_time()] returns: microseconds since
    boot, a non-negative [int64_t]. *)
Definition calib_start_run (now : Z) : cmd :=
  fun s =>
    if negb (calib_eqb (calib_state s) CAL_ARMED) then s
    else
      (set_calib_start_us now ;;
       set_calib_state CAL_RUNNING ;;
       delete_move_task ;;
       set_position_state (HOMEKIT_UINT8 1) ;;
       homekit_characteristic_notify CH_position_state ;;
       motor_drive_open true ;;
       set_pix_state PIX_CALIBRATING)%cmd s.

Definition calib_finish_on_stop (io : nvs_io) (now : Z) : cmd :=
  fun s =>
    if negb (calib_eqb (calib_state s) CAL_RUNNING) then s
    else
      let s := motor_all_off s in
      let elapsed := now - calib_start_us s in
      if elapsed <? 3 * 1000 * 1000 then calib_cancel s
      else
        let ms := (Z.quot elapsed 1000) mod 2 ^ 32 in
        let s := (set_full_travel_ms ms ;; calib_save io ms)%cmd s in
        if halted s then s
        else
          (set_pos_f (F32.of_Z 100) ;;
           set_current_position (HOMEKIT_UINT8 100) ;;
           set_position_state (HOMEKIT_UINT8 2) ;;
           homekit_characteristic_notify CH_current_position ;;
           homekit_characteristic_notify CH_position_state ;;
           set_calib_state CAL_IDLE ;;
           set_pix_state PIX_IDLE)%cmd s.

Definition hk_recal_switch_set (value : homekit_value_t) : cmd :=
  let on := if format_eqb (format value) homekit_format_bool
            then bool_value value else false in
  (if on then
     fun s => if calib_eqb (calib_state s) CAL_IDLE
              then calib_enter s else calib_cancel s
   else skip) ;;
  set_recalibrate_switch (HOMEKIT_BOOL false) ;;
  homekit_characteristic_notify CH_recalibrate_switch.

(** ** Buttons *)

Definition btn_open_callback (event : button_event_t) (now : Z) : cmd :=
  fun s =>
    match event with
    | button_event_single_press =>
        if calib_eqb (calib_state s) CAL_ARMED then calib_start_run now s
        else if calib_eqb (calib_state s) CAL_RUNNING then s
        else start_move_open s
    | _ => s
    end.

Definition btn_close_callback (event : button_event_t) : cmd :=
  fun s =>
    match event with
    | button_event_single_press =>
        if negb (calib_eqb (calib_state s) CAL_IDLE) then s
        else start_move_close s
    | _ => s
    end.

Definition btn_stop_callback (event : button_event_t) (io : nvs_io)
  (now : Z) : cmd :=
  fun s =>
    match event with
    | button_event_single_press =>
        if calib_eqb (calib_state s) CAL_RUNNING
        then calib_finish_on_stop io now s
        else hold_position_set (HOMEKIT_BOOL true) s
    | button_event_double_press =>
        if negb (calib_eqb (calib_state s) CAL_IDLE) then s
        else start_move_mid s
    | button_event_long_press =>
        if calib_eqb (calib_state s) CAL_IDLE then calib_enter s
        else calib_cancel s
    | button_event_other => s
    end.

(** ** Start-up *)

(** The statics as initialised, over what NVS holds. *)
Definition boot_image (stored : option Z) : state :=
  mk_state false false [] PIX_WIFI_WAIT None (F32.of_Z 0)
    FULL_TRAVEL_MS_DEFAULT (HOMEKIT_UINT8 0) (HOMEKIT_UINT8 0)
    (HOMEKIT_UINT8 2) (HOMEKIT_BOOL false) (HOMEKIT_BOOL false)
    CAL_IDLE 0 stored [] false.

(** The part of [app_main] that concerns the motor and the calibration. *)
Definition app_main (io : nvs_io) : cmd :=
  gpio_init_motor ;;
  set_pix_state PIX_WIFI_WAIT ;;
  fun s =>
    let '(err, nvs_ms) := calib_load io s 0 in
    if err_eqb err ESP_OK then set_full_travel_ms nvs_ms s else s.

Definition power_on (io : nvs_io) (stored : option Z) : state :=
  app_main io (boot_image stored).

(** ** Interleaving of the inputs and the movement task *)

Inductive event :=
| Ev_target_position_set (value : homekit_value_t)
| Ev_hold_position_set (value : homekit_value_t)
| Ev_recal_switch_set (value : homekit_value_t)
| Ev_btn_open (e : button_event_t) (now : Z)
| Ev_btn_close (e : button_event_t)
| Ev_btn_stop (e : button_event_t) (io : nvs_io) (now : Z)
| Ev_move_task_slice.

Definition handle (ev : event) : cmd :=
  match ev with
  | Ev_target_position_set v => target_position_set v
  | Ev_hold_position_set v => hold_position_set v
  | Ev_recal_switch_set v => hk_recal_switch_set v
  | Ev_btn_open e now => btn_open_callback e now
  | Ev_btn_close e => btn_close_callback e
  | Ev_btn_stop e io now => btn_stop_callback e io now
  | Ev_move_task_slice => move_task_slice
  end.

(** Nothing runs any more once the firmware has aborted. *)
Definition step (ev : event) : cmd :=
  fun s => if halted s then s else handle ev s.

Fixpoint run (evs : list event) (s : state) : state :=
  match evs with
  | [] => s
  | ev :: evs' => run evs' (step ev s)
  end.

(** [n] consecutive turns of the movement task. *)
Fixpoint slices (n : nat) (s : state) : state :=
  match n with
  | O => s
  | S n' => slices n' (move_task_slice s)
  end.

(** ** Vocabulary of the properties *)



(** The shade as it comes up with no calibration stored. *)
Definition fresh_state : state := power_on nvs_healthy None.

(** Three turns into a full opening from [fresh_state]. *)
Definition travelling_state : state :=
  slices 3 (target_position_set (HOMEKIT_UINT8 100) fresh_state).

(** Calibration armed from [fresh_state], and then running since
    time 0. *)
Definition armed_state : state := calib_enter fresh_state.
Definition running_state : state := calib_start_run 0 armed_state.

(** NVS that cannot be opened, and NVS whose write fails. *)
Definition nvs_unopenable : nvs_io := mk_nvs_io ESP_FAIL ESP_OK ESP_OK ESP_OK.
Definition nvs_write_fails : nvs_io := mk_nvs_io ESP_OK ESP_OK ESP_FAIL ESP_OK.

(** The closing statements of [calib_finish_on_stop] have run from [s]. *)
Definition calibration_completed (s s' : state) : Prop :=
  pos_f s' = F32.of_Z 100 /\
  current_position s' = HOMEKIT_UINT8 100 /\
  position_state s' = HOMEKIT_UINT8 2 /\
  calib_state s' = CAL_IDLE /\
  notified s' = (CH_position_state, HOMEKIT_UINT8 2)
                :: (CH_current_position, HOMEKIT_UINT8 100) :: notified s.

(** A calibration run stopped after 130 seconds. *)
Definition overlong_calibration : state :=
  calib_finish_on_stop nvs_healthy 130000000 running_state.

(** One turn into a full opening, a target of 0 arrives: the task is
    deleted and the shade rests with [pos_f] a little above one half, which
    [current_position] reports as 1. *)
Definition resting_between : state :=
  run [Ev_target_position_set (HOMEKIT_UINT8 100); Ev_move_task_slice;
       Ev_target_position_set (HOMEKIT_UINT8 0)] fresh_state.

(** A shade calibrated at ten seconds, told to open fully. *)
Definition ten_second_shade : state := power_on nvs_healthy (Some 10000).
Definition opening_run : state :=
  target_position_set (HOMEKIT_UINT8 100) ten_second_shade.

(** Equality of two binary32 values as data. *)
Definition f32_same (x y : F32.t) : bool :=
  match x, y with
  | S754_zero a, S754_zero b => Bool.eqb a b
  | S754_infinity a, S754_infinity b => Bool.eqb a b
  | S754_nan, S754_nan => true
  | S754_finite a m e, S754_finite b n f =>
      Bool.eqb a b && Pos.eqb m n && Z.eqb e f
  | _, _ => false
  end.

(** After [k] turns of [opening_run] the position is exactly [k], reported
    as [k], and the shade is still opening on the open output alone. *)
Definition opening_tick_ok (k : nat) : bool :=
  let s := slices k opening_run in
  f32_same (pos_f s) (F32.of_Z (Z.of_nat k))
  && (uint8_value (current_position s) =? Z.of_nat k)
  && (uint8_value (position_state s) =? 1)
  && relay_open s && negb (relay_close s).

(** The movement task is asleep in its opening loop, or in its closing
    loop. *)
Definition opening_task (s : state) : bool :=
  match move_task_handle s with
  | Some (mk_task _ (MOVE_OPENING _)) => true
  | _ => false
  end.

Definition closing_task (s : state) : bool :=
  match move_task_handle s with
  | Some (mk_task _ (MOVE_CLOSING _)) => true
  | _ => false
  end.

(** Every energized output is accounted for: the open output is on only
    with direction Opening reported and either a calibration run or a
    task in its opening loop; the close output is on only with direction
    Closing reported and a task in its closing loop. *)
Definition drive_accounted (s : state) : bool :=
  (negb (relay_open s)
   || ((uint8_value (position_state s) =? 1)
       && (calib_eqb (calib_state s) CAL_RUNNING || opening_task s)))
  && (negb (relay_close s)
      || ((uint8_value (position_state s) =? 0) && closing_task s)).

(** The two triggers that arm or cancel calibration: a long press of the
    stop button, and the recalibrate switch set to a boolean true. *)
Definition toggles_calibration (ev : event) : bool :=
  match ev with
  | Ev_btn_stop button_event_long_press _ _ => true
  | Ev_recal_switch_set v =>
      format_eqb (format v) homekit_format_bool && bool_value v
  | _ => false
  end.

(** A movement command toward [T] has been taken from [s]: the target is
    recorded, both outputs are off, the position estimate is kept, and the
    only task left is a fresh one toward [T] (none when the integer part of
    the position already is [T]). *)
Definition commanded (T : Z) (s s' : state) : Prop :=
  uint8_value (target_position s') = T /\
  move_task_handle s'
  = (if T =? F32.to_uint8 (pos_f s) then None
     else Some (mk_task T MOVE_ENTRY)) /\
  relay_open s' = false /\ relay_close s' = false /\
  pos_f s' = pos_f s /\
  current_position s' = current_position s.

(** The shade stands at [T]: position and reported position are [T],
    direction Stopped, both outputs off, no movement task. *)
Definition at_rest_at (T : Z) (s : state) : Prop :=
  pos_f s = F32.of_Z T /\
  uint8_value (current_position s) = T /\
  uint8_value (position_state s) = 2 /\
  relay_open s = false /\ relay_close s = false /\
  move_task_handle s = None.

Definition settled (T : Z) (s : state) : bool :=
  f32_same (pos_f s) (F32.of_Z T)
  && (uint8_value (current_position s) =? T)
  && (uint8_value (position_state s) =? 2)
  && negb (relay_open s) && negb (relay_close s)
  && match move_task_handle s with None => true | Some _ => false end.

(** From [fresh_state], a remote target [P] followed by enough turns of
    the movement task. *)
Definition rest_at (P : Z) : state :=
  slices 202 (target_position_set (HOMEKIT_UINT8 P) fresh_state).

(** ** Movement commands under preemption

    [run] takes every setter, callback and task turn as one step. FreeRTOS
    gives no such guarantee: the HomeKit setter and the button callbacks
    are called from tasks of their own, movement tasks all have priority
    5, and the program takes no lock. The machine below follows the same
    statements of [start_move_to] and [move_task] and lets a thread be
    suspended at the program points named by [caller_pc] and [task_pc]:
    in [start_move_to] after the test of [move_task_handle], after the
    deletion, and after [motor_all_off]; in [move_task] between the two
    relay writes of [motor_drive_open] or [motor_drive_close], before the
    test of a loop, and in [vTaskDelay].

    Here [move_task_handle] holds the identifier of a task ([handle_var]);
    the field of that name in [mem] is not read. [vTaskDelete] reads the
    variable again when it is called; called with [NULL] it deletes the
    calling task ([SM_deleted]). *)

Inductive caller_pc :=
| SM_test
| SM_delete
| SM_all_off
| SM_compare
| SM_return
| SM_deleted.

(** A thread inside [start_move_to (cl_target)]. *)
Record caller := mk_caller { cl_target : Z; cl_pc : caller_pc }.

Inductive task_pc :=
| MT_entry
| MT_drive_open (step : F32.t)
| MT_drive_close (step : F32.t)
| MT_opening (step : F32.t)
| MT_closing (step : F32.t).

(** A movement task that exists, whether [handle_var] points to it or
    not. *)
Record live_task := mk_live { lt_id : nat; lt_tgt : Z; lt_pc : task_pc }.

Record machine := mk_machine {
  mem : state;
  handle_var : option nat;
  tasks : list live_task;
  callers : list caller;
  next_id : nat
}.

Definition with_mem (f : cmd) (m : machine) : machine :=
  mk_machine (f (mem m)) (handle_var m) (tasks m) (callers m) (next_id m).

Definition without_task (id : nat) (l : list live_task) : list live_task :=
  filter (fun t => negb (Nat.eqb (lt_id t) id)) l.

Fixpoint put_task (t : live_task) (l : list live_task) : list live_task :=
  match l with
  | [] => []
  | x :: l' => if Nat.eqb (lt_id x) (lt_id t) then t :: l'
               else x :: put_task t l'
  end.

Fixpoint put_caller (i : nat) (c : caller) (l : list caller) : list caller :=
  match i, l with
  | _, [] => []
  | O, _ :: l' => c :: l'
  | S i', x :: l' => x :: put_caller i' c l'
  end.

(** The next statements of a thread inside [start_move_to], up to its next
    program point: its new program point and the machine it leaves. *)
Definition caller_step (c : caller) (m : machine) : caller_pc * machine :=
  match cl_pc c with
  | SM_test =>
      match handle_var m with
      | Some _ => (SM_delete, m)
      | None => (SM_all_off, m)
      end
  | SM_delete =>
      match handle_var m with
      | Some h =>
          (SM_all_off,
           mk_machine (mem m) None (without_task h (tasks m)) (callers m)
             (next_id m))
      | None => (SM_deleted, m)
      end
  | SM_all_off => (SM_compare, with_mem motor_all_off m)
  | SM_compare =>
      if cl_target c =? F32.to_uint8 (pos_f (mem m)) then
        (SM_return,
         with_mem (set_position_state (HOMEKIT_UINT8 2) ;;
                   homekit_characteristic_notify CH_position_state ;;
                   set_pix_state PIX_STOPPED) m)
      else
        (SM_return,
         mk_machine (mem m) (Some (next_id m))
           (tasks m ++ [mk_live (next_id m) (cl_target c) MT_entry])
           (callers m) (S (next_id m)))
  | SM_return => (SM_return, m)
  | SM_deleted => (SM_deleted, m)
  end.

(** The code after the two loops, run by task [id]. *)
Definition task_finish (id : nat) (tgt : Z) (m : machine) : machine :=
  mk_machine (move_task_finish tgt (mem m)) None (without_task id (tasks m))
    (callers m) (next_id m).

Definition task_at (t : live_task) (pc : task_pc) (f : cmd) (m : machine)
  : machine :=
  mk_machine (f (mem m)) (handle_var m)
    (put_task (mk_live (lt_id t) (lt_tgt t) pc) (tasks m))
    (callers m) (next_id m).

(** The next statements of a movement task, up to its next program
    point. *)
Definition task_step (t : live_task) (m : machine) : machine :=
  let tgt := lt_tgt t in
  match lt_pc t with
  | MT_entry =>
      let step := move_step (full_travel_ms (mem m)) in
      if tgt >? F32.to_uint8 (pos_f (mem m)) then
        task_at t (MT_drive_open step)
          (set_position_state (HOMEKIT_UINT8 1) ;;
           homekit_characteristic_notify CH_position_state ;;
           set_pix_state PIX_OPENING ;;
           relay_write RELAY_CLOSE_GPIO false) m
      else if tgt <? F32.to_uint8 (pos_f (mem m)) then
        task_at t (MT_drive_close step)
          (set_position_state (HOMEKIT_UINT8 0) ;;
           homekit_characteristic_notify CH_position_state ;;
           set_pix_state PIX_CLOSING ;;
           relay_write RELAY_OPEN_GPIO false) m
      else task_finish (lt_id t) tgt m
  | MT_drive_open step =>
      task_at t (MT_opening step) (relay_write RELAY_OPEN_GPIO true) m
  | MT_drive_close step =>
      task_at t (MT_closing step) (relay_write RELAY_CLOSE_GPIO true) m
  | MT_opening step =>
      if opening_cond tgt (mem m)
      then task_at t (MT_opening step) (opening_body step) m
      else task_finish (lt_id t) tgt m
  | MT_closing step =>
      if closing_cond tgt (mem m)
      then task_at t (MT_closing step) (closing_body step) m
      else task_finish (lt_id t) tgt m
  end.

(** What the scheduler runs next. *)
Inductive pick := Run_caller (i : nat) | Run_task (id : nat).

Definition conc_step (p : pick) (m : machine) : machine :=
  match p with
  | Run_caller i =>
      match nth_error (callers m) i with
      | Some c =>
          let '(pc, m') := caller_step c m in
          mk_machine (mem m') (handle_var m') (tasks m')
            (put_caller i (mk_caller (cl_target c) pc) (callers m'))
            (next_id m')
      | None => m
      end
  | Run_task id =>
      match find (fun t => Nat.eqb (lt_id t) id) (tasks m) with
      | Some t => task_step t m
      | None => m
      end
  end.

Fixpoint conc_run (sched : list pick) (m : machine) : machine :=
  match sched with
  | [] => m
  | p :: sched' => conc_run sched' (conc_step p m)
  end.




(** * Properties *)

(** ** The relay interlock *)











































(** ** Calibration: from Armed to Running *)

(** What [calib_start_run] does from Armed. *)
Lemma calib_start_run_from_armed (now : Z) (s : state) :
  calib_state s = CAL_ARMED ->
  let s' := calib_start_run now s in
  btn_open_callback button_event_single_press now s = s' /\
  calib_state s' = CAL_RUNNING /\
  calib_start_us s' = now /\
  move_task_handle s' = None /\
  relay_open s' = true /\ relay_close s' = false /\
  position_state s' = HOMEKIT_UINT8 1 /\
  notified s' = (CH_position_state, HOMEKIT_UINT8 1) :: notified s /\
  target_position s' = target_position s.
Proof.
  intros H s'. subst s'.
  unfold btn_open_callback, calib_start_run, seq, delete_move_task.
  rewrite H. cbn.
  destruct (move_task_handle s) as [tk|] eqn:Hh; cbn; rewrite ?Hh;
    repeat split; reflexivity.
Qed.

(** C9. From Armed, [calib_start_run] (reached by a single press of the
    open button) records the start timestamp, leaves no movement task,
    forces the open output alone, sets and notifies direction Opening, and
    does not touch [target_position] nor notify it. *)
Theorem calib_start_run_effect :
  forall (now : Z) (s : state),
    calib_state s = CAL_ARMED ->
    let s' := calib_start_run now s in
    btn_open_callback button_event_single_press now s = s' /\
    calib_state s' = CAL_RUNNING /\
    calib_start_us s' = now /\
    move_task_handle s' = None /\
    relay_open s' = true /\ relay_close s' = false /\
    position_state s' = HOMEKIT_UINT8 1 /\
    notified s' = (CH_position_state, HOMEKIT_UINT8 1) :: notified s /\
    target_position s' = target_position s.
Proof.
  intros now s H. exact (calib_start_run_from_armed now s H).
Qed.

Lemma calib_start_run_effect_witness :
  calib_state armed_state = CAL_ARMED /\
  calib_start_us (calib_start_run 5000000 armed_state) = 5000000 /\
  relay_open (calib_start_run 5000000 armed_state) = true.
Proof.
  assert (H : calib_state armed_state = CAL_ARMED) by reflexivity.
  destruct (calib_start_run_effect 5000000 armed_state H)
    as (_ & _ & A & _ & B & _).
  split; [exact H|]. split; [exact A | exact B].
Defined.

(** ** Reading fields through the program *)

(** Projections of a state built by setters. *)
Ltac fields :=
  cbn [relay_open relay_close gpio_trace pix_state move_task_handle pos_f
       full_travel_ms current_position target_position position_state
       hold_position recalibrate_switch calib_state calib_start_us
       nvs_full_ms notified halted
       set_relay_open set_relay_close set_gpio_trace set_pix_state
       set_move_task_handle set_pos_f set_full_travel_ms
       set_current_position set_target_position set_position_state
       set_hold_position set_recalibrate_switch set_calib_state
       set_calib_start_us set_nvs_full_ms set_notified set_halted
       seq skip suspend xTaskCreate_move_task relay_write
       homekit_characteristic_notify value_of
       format bool_value uint8_value HOMEKIT_BOOL HOMEKIT_UINT8
       tk_tgt tk_pc negb andb orb format_eqb calib_eqb err_eqb] in *.

(** The program laid open down to setters and tests. *)
Ltac lay_open :=
  unfold handle, btn_open_callback, btn_close_callback, btn_stop_callback,
    hk_recal_switch_set, target_position_set, hold_position_set,
    start_move_open, start_move_close, start_move_mid,
    notify_target_and_move, start_move_to,
    calib_finish_on_stop, calib_enter, calib_cancel, calib_start_run,
    calib_save, move_task_slice, move_task_resume, move_task,
    opening_loop, closing_loop, opening_body, closing_body,
    move_task_finish, report_current_position, delete_move_task,
    motor_drive_open, motor_drive_close, motor_all_off in *.

(** Case analysis on every test the goal still branches on. *)
Ltac cases :=
  repeat (unfold seq, skip in *; fields;
          match goal with
          | |- context [if ?b then _ else _] => destruct b
          | |- context [match ?x with _ => _ end] => destruct x
          end);
  unfold seq, skip in *; fields.

(** ** The momentary characteristics *)

Lemma hold_position_handle (ev : event) (s : state) :
  hold_position s = HOMEKIT_BOOL false ->
  hold_position (handle ev s) = HOMEKIT_BOOL false.
Proof. intros H. lay_open. cases; try assumption; reflexivity. Qed.

Lemma hold_position_run (evs : list event) :
  forall s, hold_position s = HOMEKIT_BOOL false ->
            hold_position (run evs s) = HOMEKIT_BOOL false.
Proof.
  induction evs as [|ev evs IH]; intros s H; cbn [run]; [exact H|].
  apply IH. unfold step. destruct (halted s); [exact H|].
  now apply hold_position_handle.
Qed.

Lemma hold_position_power_on (io : nvs_io) (stored : option Z) :
  hold_position (power_on io stored) = HOMEKIT_BOOL false.
Proof.
  unfold power_on, app_main, gpio_init_motor, motor_all_off, seq.
  destruct (calib_load _ _ _) as [err ms]. destruct (err_eqb _ _); reflexivity.
Qed.

(** C7. Whatever state the program is in, whatever value a momentary
    request carries and whatever it triggers: [hk_recal_switch_set] always
    ends by assigning false to [recalibrate_switch] and notifying it, and
    [hold_position_set], for every boolean request, ends by assigning
    false to [hold_position] and notifying it. A hold request that is not
    a boolean is dropped before anything is assigned or sent; in every
    state the program reaches from power-on [hold_position] reads false
    after it all the same. *)
Theorem momentary_requests_read_false :
  forall (s0 : state) (io : nvs_io) (stored : option Z) (evs : list event)
         (value : homekit_value_t),
    let s := run evs (power_on io stored) in
    recalibrate_switch (hk_recal_switch_set value s0) = HOMEKIT_BOOL false /\
    hd_error (notified (hk_recal_switch_set value s0))
      = Some (CH_recalibrate_switch, HOMEKIT_BOOL false) /\
    (if format_eqb (format value) homekit_format_bool
     then hold_position (hold_position_set value s0) = HOMEKIT_BOOL false /\
          hd_error (notified (hold_position_set value s0))
          = Some (CH_hold_position, HOMEKIT_BOOL false)
     else hold_position_set value s0 = s0) /\
    hold_position (hold_position_set value s) = HOMEKIT_BOOL false /\
    recalibrate_switch (hk_recal_switch_set value s) = HOMEKIT_BOOL false /\
    hd_error (notified (hk_recal_switch_set value s))
      = Some (CH_recalibrate_switch, HOMEKIT_BOOL false) /\
    (if format_eqb (format value) homekit_format_bool
     then hd_error (notified (hold_position_set value s))
          = Some (CH_hold_position, HOMEKIT_BOOL false)
     else hold_position_set value s = s).
Proof.
  intros s0 io stored evs value s.
  assert (Hs : hold_position s = HOMEKIT_BOOL false)
    by apply hold_position_run, hold_position_power_on.
  clearbody s.
  assert (R : forall x,
             recalibrate_switch (hk_recal_switch_set value x)
             = HOMEKIT_BOOL false /\
             hd_error (notified (hk_recal_switch_set value x))
             = Some (CH_recalibrate_switch, HOMEKIT_BOOL false)).
  { intros x. unfold hk_recal_switch_set. split; cases; reflexivity. }
  assert (B : forall x,
             if format_eqb (format value) homekit_format_bool
             then hold_position (hold_position_set value x)
                  = HOMEKIT_BOOL false /\
                  hd_error (notified (hold_position_set value x))
                  = Some (CH_hold_position, HOMEKIT_BOOL false)
             else hold_position_set value x = x).
  { intros x. unfold hold_position_set.
    destruct (format_eqb (format value) homekit_format_bool);
      cbn [negb]; [|reflexivity].
    split; cases; reflexivity. }
  split; [exact (proj1 (R s0))|]. split; [exact (proj2 (R s0))|].
  split; [exact (B s0)|].
  split.
  { unfold hold_position_set. cases; try assumption; reflexivity. }
  split; [exact (proj1 (R s))|]. split; [exact (proj2 (R s))|].
  generalize (B s).
  destruct (format_eqb (format value) homekit_format_bool);
    [intros [_ N]; exact N | trivial].
Qed.

(** ** A hold in the middle of a movement *)

Lemma opening_loop_not_opening (tgt : Z) (step : F32.t) (s : state) :
  uint8_value (position_state s) <> 1 ->
  opening_loop tgt step s = move_task_finish tgt s.
Proof.
  intros H. unfold opening_loop, opening_cond.
  apply Z.eqb_neq in H. rewrite H, andb_false_r. reflexivity.
Qed.

Lemma closing_loop_not_closing (tgt : Z) (step : F32.t) (s : state) :
  uint8_value (position_state s) <> 0 ->
  closing_loop tgt step s = move_task_finish tgt s.
Proof.
  intros H. unfold closing_loop, closing_cond.
  apply Z.eqb_neq in H. rewrite H, andb_false_r. reflexivity.
Qed.

Lemma move_task_finish_effect (tgt : Z) (s : state) :
  let s' := move_task_finish tgt s in
  pos_f s' = F32.of_Z tgt /\
  uint8_value (current_position s') = tgt /\
  position_state s' = HOMEKIT_UINT8 2 /\
  move_task_handle s' = None /\
  relay_open s' = false /\ relay_close s' = false /\
  (uint8_value (current_position s) <> tgt ->
   notified s' = (CH_current_position, HOMEKIT_UINT8 tgt)
                 :: (CH_position_state, HOMEKIT_UINT8 2) :: notified s).
Proof.
  unfold move_task_finish, report_current_position, motor_all_off.
  unfold seq. fields.
  destruct (tgt =? uint8_value (current_position s)) eqn:E; fields.
  - apply Z.eqb_eq in E. repeat split; auto. intros H. congruence.
  - repeat split; auto.
Qed.

(** C10. A hold request that arrives while the movement task sleeps in
    one of its loops sets direction Stopped and leaves the task alive; at
    its next turn the task leaves the loop, switches both outputs off,
    snaps [pos_f] to its own target and makes [current_position] that
    target (notifying it when it differs from the value held), wherever
    the motion had got to. *)
Theorem hold_mid_travel_snaps_to_target :
  forall (s : state) (tgt : Z) (pc : move_pc),
    move_task_handle s = Some (mk_task tgt pc) ->
    pc <> MOVE_ENTRY ->
    let s1 := hold_position_set (HOMEKIT_BOOL true) s in
    let s2 := move_task_slice s1 in
    position_state s1 = HOMEKIT_UINT8 2 /\
    move_task_handle s1 = Some (mk_task tgt pc) /\
    pos_f s1 = pos_f s /\
    pos_f s2 = F32.of_Z tgt /\
    uint8_value (current_position s2) = tgt /\
    position_state s2 = HOMEKIT_UINT8 2 /\
    move_task_handle s2 = None /\
    relay_open s2 = false /\ relay_close s2 = false /\
    (uint8_value (current_position s) <> tgt ->
     notified s2 = (CH_current_position, HOMEKIT_UINT8 tgt)
                   :: (CH_position_state, HOMEKIT_UINT8 2) :: notified s1).
Proof.
  intros s tgt pc Hh Hpc s1 s2.
  assert (P1 : position_state s1 = HOMEKIT_UINT8 2) by reflexivity.
  assert (P2 : move_task_handle s1 = Some (mk_task tgt pc)) by exact Hh.
  assert (P3 : pos_f s1 = pos_f s) by reflexivity.
  assert (P4 : current_position s1 = current_position s) by reflexivity.
  assert (E : s2 = move_task_finish tgt s1).
  { subst s2. unfold move_task_slice. rewrite P2.
    unfold move_task_resume. cbn [tk_pc tk_tgt].
    destruct pc as [|step|step]; [congruence| |].
    - apply opening_loop_not_opening. rewrite P1. cbn. lia.
    - apply closing_loop_not_closing. rewrite P1. cbn. lia. }
  clearbody s1 s2. subst s2.
  destruct (move_task_finish_effect tgt s1) as (A & B & C & D & F & G & N).
  rewrite P4 in N. repeat split; assumption.
Qed.

Lemma hold_mid_travel_snaps_to_target_witness :
  move_task_handle travelling_state
    = Some (mk_task 100 (MOVE_OPENING (move_step 18000))) /\
  F32.to_uint8 (pos_f travelling_state) = 1 /\
  uint8_value
    (current_position
       (move_task_slice
          (hold_position_set (HOMEKIT_BOOL true) travelling_state))) = 100.
Proof.
  split; [vm_compute; reflexivity|]. split; [vm_compute; reflexivity|].
  apply (hold_mid_travel_snaps_to_target travelling_state 100
           (MOVE_OPENING (move_step 18000))).
  - vm_compute; reflexivity.
  - discriminate.
Defined.

(** ** Values of an unexpected encoding *)

(** A recalibrate request that is not a boolean still sends a
    notification: the statement of C8 fails for that characteristic. *)
Lemma recalibrate_wrong_encoding_notifies :
  format (HOMEKIT_UINT8 1) <> homekit_format_bool /\
  notified (hk_recal_switch_set (HOMEKIT_UINT8 1) fresh_state)
    = (CH_recalibrate_switch, HOMEKIT_BOOL false) :: notified fresh_state /\
  notified (hk_recal_switch_set (HOMEKIT_UINT8 1) fresh_state)
    <> notified fresh_state.
Proof.
  split; [discriminate|]. split; [reflexivity|].
  vm_compute. discriminate.
Qed.

(** C8, amended. A value of the wrong format leaves the whole state as it
    was, with no notification, when sent to [target_position_set] or
    [hold_position_set]. Sent to [hk_recal_switch_set] it is read as
    false: no calibration transition and no relay write, but
    [recalibrate_switch] is still set to false and notified. *)
Theorem wrong_encoding_handling :
  forall (s : state) (v8 vb : homekit_value_t),
    format v8 <> homekit_format_uint8 ->
    format vb <> homekit_format_bool ->
    target_position_set v8 s = s /\
    hold_position_set vb s = s /\
    hk_recal_switch_set vb s
      = homekit_characteristic_notify CH_recalibrate_switch
          (set_recalibrate_switch (HOMEKIT_BOOL false) s) /\
    calib_state (hk_recal_switch_set vb s) = calib_state s /\
    gpio_trace (hk_recal_switch_set vb s) = gpio_trace s /\
    notified (hk_recal_switch_set vb s)
      = (CH_recalibrate_switch, HOMEKIT_BOOL false) :: notified s.
Proof.
  intros s v8 vb H8 Hb.
  assert (E8 : format_eqb (format v8) homekit_format_uint8 = false)
    by (destruct (format v8); congruence || reflexivity).
  assert (Eb : format_eqb (format vb) homekit_format_bool = false)
    by (destruct (format vb); congruence || reflexivity).
  unfold target_position_set, hold_position_set, hk_recal_switch_set.
  rewrite E8, Eb. cbn [negb]. repeat split.
Qed.

Lemma wrong_encoding_handling_witness :
  format (HOMEKIT_BOOL true) <> homekit_format_uint8 /\
  format (HOMEKIT_UINT8 1) <> homekit_format_bool /\
  target_position_set (HOMEKIT_BOOL true) travelling_state = travelling_state /\
  hold_position_set (HOMEKIT_UINT8 1) travelling_state = travelling_state.
Proof.
  split; [discriminate|]. split; [discriminate|].
  destruct (wrong_encoding_handling travelling_state
              (HOMEKIT_BOOL true) (HOMEKIT_UINT8 1)) as (A & B & _);
    [discriminate | discriminate |].
  split; [exact A | exact B].
Defined.

(** ** Commands while calibration is Armed or Running *)

(** Two of the commands C2 names are not suppressed: a single press of
    the open button while Armed energizes the open output, and a remote
    target while Running switches the forced open drive off and creates a
    movement task. *)
Lemma commands_during_calibration_not_all_suppressed :
  calib_state armed_state = CAL_ARMED /\
  relay_open armed_state = false /\
  relay_open (btn_open_callback button_event_single_press 0 armed_state)
    = true /\
  calib_state running_state = CAL_RUNNING /\
  relay_open running_state = true /\
  move_task_handle running_state = None /\
  move_task_handle (target_position_set (HOMEKIT_UINT8 40) running_state)
    = Some (mk_task 40 MOVE_ENTRY) /\
  relay_open (target_position_set (HOMEKIT_UINT8 40) running_state) = false.
Proof. vm_compute. repeat split. Qed.

(** C2, amended. While calibration is Armed or Running, a press of the
    close button and a double press of the stop button change nothing: no
    movement task, no relay write. A press of the open button changes
    nothing while Running; while Armed it is the start of the calibration
    run, which leaves no movement task and drives the open output. *)
Theorem calibration_suppresses_buttons :
  forall (s : state) (e : button_event_t) (io : nvs_io) (now : Z),
    calib_state s <> CAL_IDLE ->
    btn_close_callback e s = s /\
    btn_stop_callback button_event_double_press io now s = s /\
    match calib_state s with
    | CAL_RUNNING => btn_open_callback e now s = s
    | _ =>
        btn_open_callback button_event_single_press now s
          = calib_start_run now s /\
        move_task_handle (calib_start_run now s) = None /\
        relay_open (calib_start_run now s) = true /\
        relay_close (calib_start_run now s) = false
    end.
Proof.
  intros s e io now H.
  unfold btn_close_callback, btn_stop_callback, btn_open_callback.
  destruct (calib_state s) eqn:E; [congruence| |].
  - cbn [calib_eqb negb]. split; [destruct e; reflexivity|].
    split; [reflexivity|].
    destruct (calib_start_run_from_armed now s E) as (_ & _ & _ & A & B & C & _).
    repeat split; assumption.
  - cbn [calib_eqb negb]. repeat split; destruct e; reflexivity.
Qed.

Lemma calibration_suppresses_buttons_witness :
  calib_state running_state <> CAL_IDLE /\
  btn_close_callback button_event_single_press running_state = running_state.
Proof.
  assert (H : calib_state running_state <> CAL_IDLE)
    by (vm_compute; discriminate).
  split; [exact H|].
  exact (proj1 (calibration_suppresses_buttons running_state
                  button_event_single_press nvs_healthy 7 H)).
Defined.

(** ** The end of a calibration run *)

(** The test on microseconds is the test on whole milliseconds. *)
Lemma three_seconds_test (elapsed : Z) :
  (elapsed <? 3 * 1000 * 1000) = (Z.quot elapsed 1000 <? 3000).
Proof.
  pose proof (Z.quot_rem' elapsed 1000) as E.
  destruct (Z_lt_le_dec elapsed 0) as [Hn|Hp].
  - pose proof (Z.rem_bound_pos_neg elapsed 1000 ltac:(lia) ltac:(lia)) as B.
    destruct (Z.ltb_spec elapsed (3 * 1000 * 1000));
      destruct (Z.ltb_spec (Z.quot elapsed 1000) 3000); trivial; lia.
  - pose proof (Z.rem_bound_pos_pos elapsed 1000 ltac:(lia) Hp) as B.
    destruct (Z.ltb_spec elapsed (3 * 1000 * 1000));
      destruct (Z.ltb_spec (Z.quot elapsed 1000) 3000); trivial; lia.
Qed.

(** Three runs on which the statement of C3 fails. A run of
    [2^32 + 5000] milliseconds is recorded as 5000. When NVS cannot be
    opened, a run of 12 seconds changes the duration in memory and leaves
    storage as it was. When the NVS write fails, the firmware aborts with
    the position and the phase as they were. *)
Lemma calibration_not_always_recorded :
  Z.quot (4294972296000 - calib_start_us running_state) 1000 = 4294972296 /\
  full_travel_ms (calib_finish_on_stop nvs_healthy 4294972296000 running_state)
    = 5000 /\
  nvs_full_ms (calib_finish_on_stop nvs_healthy 4294972296000 running_state)
    = Some 5000 /\
  nvs_full_ms running_state = None /\
  full_travel_ms (calib_finish_on_stop nvs_unopenable 12000000 running_state)
    = 12000 /\
  nvs_full_ms (calib_finish_on_stop nvs_unopenable 12000000 running_state)
    = None /\
  calib_state (calib_finish_on_stop nvs_write_fails 12000000 running_state)
    = CAL_RUNNING /\
  uint8_value
    (current_position
       (calib_finish_on_stop nvs_write_fails 12000000 running_state)) = 0.
Proof. vm_compute. repeat split. Qed.

(** C3, amended. A stop that finishes a calibration run, with [elapsed]
    the whole milliseconds since its start: below 3000, the duration in
    memory and in storage stay as they were, both outputs are off and the
    phase is Idle. From 3000 on, the duration in memory becomes
    [elapsed mod 2^32]; if NVS opens, writes and commits, storage holds
    the same value; if NVS does not open, storage stays as it was; in both
    cases the position is 100, the direction is reported Stopped and the
    phase is Idle. If NVS opens and the write or commit fails, the
    firmware aborts. *)
Theorem calib_finish_on_stop_effect :
  forall (io : nvs_io) (now : Z) (s : state),
    calib_state s = CAL_RUNNING ->
    halted s = false ->
    let elapsed := Z.quot (now - calib_start_us s) 1000 in
    let s' := calib_finish_on_stop io now s in
    if elapsed <? 3000 then
      full_travel_ms s' = full_travel_ms s /\
      nvs_full_ms s' = nvs_full_ms s /\
      calib_state s' = CAL_IDLE /\
      relay_open s' = false /\ relay_close s' = false
    else
      full_travel_ms s' = elapsed mod 2 ^ 32 /\
      match nvs_open_result io with
      | ESP_OK =>
          match nvs_set_result io, nvs_commit_result io with
          | ESP_OK, ESP_OK =>
              nvs_full_ms s' = Some (elapsed mod 2 ^ 32) /\
              calibration_completed s s'
          | _, _ => halted s' = true
          end
      | _ => nvs_full_ms s' = nvs_full_ms s /\ calibration_completed s s'
      end.
Proof.
  intros io now s Hc Hh elapsed s'. subst elapsed s'.
  unfold calib_finish_on_stop. rewrite Hc. cbn [calib_eqb negb].
  change (calib_start_us (motor_all_off s)) with (calib_start_us s).
  rewrite three_seconds_test.
  destruct (Z.quot (now - calib_start_us s) 1000 <? 3000).
  - unfold calib_cancel.
    change (calib_state (motor_all_off s)) with (calib_state s).
    rewrite Hc. cbn [calib_eqb]. repeat split.
  - unfold calib_save, calibration_completed, motor_all_off, seq.
    destruct (nvs_open_result io), (nvs_set_result io),
      (nvs_commit_result io); fields; rewrite ?Hh; fields; repeat split.
Qed.

Lemma calib_finish_on_stop_effect_witness :
  calib_state running_state = CAL_RUNNING /\
  halted running_state = false /\
  full_travel_ms (calib_finish_on_stop nvs_healthy 12000000 running_state)
    = 12000 /\
  nvs_full_ms (calib_finish_on_stop nvs_healthy 12000000 running_state)
    = Some 12000.
Proof.
  assert (Hc : calib_state running_state = CAL_RUNNING) by reflexivity.
  assert (Hh : halted running_state = false) by reflexivity.
  split; [exact Hc|]. split; [exact Hh|].
  pose proof (calib_finish_on_stop_effect nvs_healthy 12000000
                running_state Hc Hh) as H.
  vm_compute in H. vm_compute. destruct H as (A & B & _).
  split; [exact A | exact B].
Defined.

(** ** The range of the full-travel duration *)

(** [calib_load] answers [ESP_OK] only with a value in the valid range. *)
Lemma calib_load_ok (io : nvs_io) (s : state) (out_ms v : Z) :
  calib_load io s out_ms = (ESP_OK, v) -> 3000 <= v <= 120000.
Proof.
  unfold calib_load.
  destruct (negb (err_eqb (nvs_open_result io) ESP_OK)) eqn:E1.
  - intros H. inversion H as [[H1 H2]]. rewrite H1 in E1. discriminate.
  - destruct (nvs_get_u32 io s 0) as [err x].
    destruct (err_eqb err ESP_OK && (3000 <=? x) && (x <=? 120000)) eqn:E2;
      intros H; inversion H; subst.
    apply andb_prop in E2. destruct E2 as [E2 E3].
    apply andb_prop in E2. destruct E2 as [_ E2]. lia.
Qed.

(** What power-on leaves in [full_travel_ms] is within the valid range
    whatever NVS holds or answers. *)
Lemma power_on_full_travel_in_range (io : nvs_io) (stored : option Z) :
  3000 <= full_travel_ms (power_on io stored) <= 120000.
Proof.
  unfold power_on, app_main, seq.
  destruct (calib_load io _ 0) as [err ms] eqn:E.
  destruct err; cbn [err_eqb]; try (cbn; unfold FULL_TRAVEL_MS_DEFAULT; lia).
  apply calib_load_ok in E. exact E.
Qed.

(** C4 at a failing input. A calibration run stopped after 130 seconds
    puts 130000 in [full_travel_ms] and in storage, above the 120000 that
    [calib_load] accepts; the next movement task steps by
    [move_step 130000]; and the next power-on rejects the stored value and
    falls back to the default. *)
Theorem calibration_exceeds_valid_range :
  calib_state running_state = CAL_RUNNING /\
  full_travel_ms overlong_calibration = 130000 /\
  120000 < full_travel_ms overlong_calibration /\
  nvs_full_ms overlong_calibration = Some 130000 /\
  move_task_handle
    (move_task_slice
       (target_position_set (HOMEKIT_UINT8 0) overlong_calibration))
    = Some (mk_task 0 (MOVE_CLOSING (move_step 130000))) /\
  full_travel_ms (power_on nvs_healthy (nvs_full_ms overlong_calibration))
    = FULL_TRAVEL_MS_DEFAULT.
Proof. vm_compute. repeat split. Qed.

(** ** A target equal to the current position *)

(** With the target at the integer part of [pos_f], [start_move_to] only
    switches both outputs off and reports Stopped. *)
Lemma start_move_to_at_position (s : state) :
  let s' := start_move_to (F32.to_uint8 (pos_f s)) s in
  move_task_handle s' = None /\
  relay_open s' = false /\ relay_close s' = false /\
  gpio_trace s' = (false, false) :: (false, relay_close s) :: gpio_trace s /\
  position_state s' = HOMEKIT_UINT8 2 /\
  notified s' = (CH_position_state, HOMEKIT_UINT8 2) :: notified s /\
  pos_f s' = pos_f s /\
  target_position s' = target_position s.
Proof.
  unfold start_move_to, delete_move_task, motor_all_off, seq.
  destruct (move_task_handle s) as [tk|] eqn:E; fields;
    rewrite Z.eqb_refl; fields; rewrite ?E; repeat split.
Qed.

(** A target equal to the rounded position and not to its integer part
    does start a movement. At rest in [resting_between] the position rounds
    to 1, which is also what [current_position] reports; a target of 1
    creates a movement task, whose first turn energizes the open output. *)
Lemma target_at_rounded_position_moves :
  move_task_handle resting_between = None /\
  uint8_value (position_state resting_between) = 2 /\
  F32.to_uint8 (F32.add (pos_f resting_between) F32.half) = 1 /\
  uint8_value (current_position resting_between) = 1 /\
  F32.to_uint8 (pos_f resting_between) = 0 /\
  move_task_handle (target_position_set (HOMEKIT_UINT8 1) resting_between)
    = Some (mk_task 1 MOVE_ENTRY) /\
  relay_open
    (move_task_slice (target_position_set (HOMEKIT_UINT8 1) resting_between))
    = true /\
  uint8_value
    (position_state
       (move_task_slice
          (target_position_set (HOMEKIT_UINT8 1) resting_between))) = 1.
Proof. vm_compute. repeat split. Qed.

(** C5, amended. For every target [T] equal to the integer part of the
    current position, [(uint8_t)pos_f], issuing [T] (by [start_move_to],
    and so by the remote setter) leaves no movement task, writes the two
    outputs off and nothing else, sets direction Stopped and notifies it at
    once; a turn of the scheduler then changes nothing. *)
Theorem target_at_truncated_position_is_noop :
  forall (s : state) (T : Z),
    T = F32.to_uint8 (pos_f s) ->
    let s' := start_move_to T s in
    let r := target_position_set (HOMEKIT_UINT8 T) s in
    (move_task_handle s' = None /\
     move_task_slice s' = s' /\
     relay_open s' = false /\ relay_close s' = false /\
     gpio_trace s' = (false, false) :: (false, relay_close s) :: gpio_trace s /\
     position_state s' = HOMEKIT_UINT8 2 /\
     notified s' = (CH_position_state, HOMEKIT_UINT8 2) :: notified s) /\
    (move_task_handle r = None /\
     relay_open r = false /\ relay_close r = false /\
     gpio_trace r = (false, false) :: (false, relay_close s) :: gpio_trace s /\
     position_state r = HOMEKIT_UINT8 2 /\
     notified r = (CH_target_position, HOMEKIT_UINT8 T)
                  :: (CH_position_state, HOMEKIT_UINT8 2) :: notified s).
Proof.
  intros s T HT s' r. subst T. split.
  - destruct (start_move_to_at_position s) as (A & B & C & D & E & F & _).
    fold s' in A, B, C, D, E, F.
    repeat split; try assumption.
    unfold move_task_slice. rewrite A. reflexivity.
  - subst r. unfold target_position_set.
    cbn [format HOMEKIT_UINT8 format_eqb negb uint8_value]. unfold seq.
    set (s0 := set_target_position
                 (HOMEKIT_UINT8 (F32.to_uint8 (pos_f s))) s).
    destruct (start_move_to_at_position s0) as (A & B & C & D & E & F & _ & G).
    change (F32.to_uint8 (pos_f s0)) with (F32.to_uint8 (pos_f s)) in *.
    set (s1 := start_move_to (F32.to_uint8 (pos_f s)) s0) in *.
    clearbody s1. unfold homekit_characteristic_notify, value_of.
    cbn [move_task_handle relay_open relay_close gpio_trace position_state
         notified set_notified].
    rewrite A, B, C, D, E, F, G. repeat split.
Qed.

Lemma target_at_truncated_position_is_noop_witness :
  0 = F32.to_uint8 (pos_f resting_between) /\
  move_task_handle (start_move_to 0 resting_between) = None /\
  position_state (start_move_to 0 resting_between) = HOMEKIT_UINT8 2.
Proof.
  assert (H : 0 = F32.to_uint8 (pos_f resting_between))
    by (vm_compute; reflexivity).
  destruct (target_at_truncated_position_is_noop resting_between 0 H)
    as ((A & _ & _ & _ & _ & B & _) & _).
  split; [exact H|]. split; [exact A | exact B].
Defined.

(** ** The step of the movement task *)

Lemma f32_same_eq (x y : F32.t) : f32_same x y = true -> x = y.
Proof.
  destruct x as [a|a| |a m e], y as [b|b| |b n f]; cbn [f32_same];
    try discriminate; try reflexivity.
  - intros H. apply Bool.eqb_prop in H. now subst.
  - intros H. apply Bool.eqb_prop in H. now subst.
  - intros H. apply andb_prop in H. destruct H as [H He].
    apply andb_prop in H. destruct H as [Hs Hm].
    apply Bool.eqb_prop in Hs. apply Pos.eqb_eq in Hm. apply Z.eqb_eq in He.
    now subst.
Qed.

Lemma opening_loop_advance (tgt : Z) (step : F32.t) (s : state) :
  opening_cond tgt s = true ->
  let p := F32.add (pos_f s) step in
  pos_f (opening_loop tgt step s)
    = (if F32.ltb (F32.of_Z 100) p then F32.of_Z 100 else p) /\
  move_task_handle (opening_loop tgt step s)
    = Some (mk_task tgt (MOVE_OPENING step)).
Proof.
  intros H p. unfold opening_loop. rewrite H.
  unfold opening_body, report_current_position, seq. fold p.
  destruct (negb _); split; reflexivity.
Qed.

Lemma closing_loop_advance (tgt : Z) (step : F32.t) (s : state) :
  closing_cond tgt s = true ->
  let p := F32.sub (pos_f s) step in
  pos_f (closing_loop tgt step s)
    = (if F32.ltb p (F32.of_Z 0) then F32.of_Z 0 else p) /\
  move_task_handle (closing_loop tgt step s)
    = Some (mk_task tgt (MOVE_CLOSING step)).
Proof.
  intros H p. unfold closing_loop. rewrite H.
  unfold closing_body, report_current_position, seq. fold p.
  destruct (negb _); split; reflexivity.
Qed.

(** A task that survives its first turn carries the step computed from
    [full_travel_ms] as it was on entry. *)
Lemma move_task_step (tgt : Z) (s : state) (tk : move_task_t) :
  move_task_handle (move_task tgt s) = Some tk ->
  tk_pc tk = MOVE_OPENING (move_step (full_travel_ms s)) \/
  tk_pc tk = MOVE_CLOSING (move_step (full_travel_ms s)).
Proof.
  unfold move_task, opening_loop, closing_loop, opening_body, closing_body,
    move_task_finish, report_current_position.
  destruct (tgt >? _); [|destruct (tgt <? _)].
  - unfold seq at 1 2 3 4. destruct (opening_cond _ _).
    + unfold seq. destruct (negb _); cbn; intros H; inversion H; auto.
    + unfold seq. destruct (negb _); cbn; discriminate.
  - unfold seq at 1 2 3 4. destruct (closing_cond _ _).
    + unfold seq. destruct (negb _); cbn; intros H; inversion H; auto.
    + unfold seq. destruct (negb _); cbn; discriminate.
  - unfold seq. destruct (negb _); cbn; discriminate.
Qed.

Lemma opening_run_ticks :
  forallb opening_tick_ok (List.seq 1 100) = true.
Proof. vm_compute. reflexivity. Qed.

(** C6. Each pass of a loop of the movement task moves [pos_f] by [step]
    (then clamps it to 100, or to 0), and [step] is
    [100.0f * MOVE_TICK_MS / full_travel_ms], taken once when the task
    starts. With [full_travel_ms = 10000] the step is exactly 1.0; from
    position 0 with target 100 the position after [k] ticks is exactly [k]
    for every [k] from 1 to 100, reported as [k], the shade opening on the
    open output alone; the position is 100 after the 100th tick, and at the
    end of that tick the task leaves its loop: position 100, direction
    Stopped, both outputs off, no task left. *)
Theorem per_tick_increment :
  (forall (tgt : Z) (step : F32.t) (s : state),
      opening_cond tgt s = true ->
      pos_f (opening_loop tgt step s)
      = (if F32.ltb (F32.of_Z 100) (F32.add (pos_f s) step)
         then F32.of_Z 100 else F32.add (pos_f s) step)) /\
  (forall (tgt : Z) (step : F32.t) (s : state),
      closing_cond tgt s = true ->
      pos_f (closing_loop tgt step s)
      = (if F32.ltb (F32.sub (pos_f s) step) (F32.of_Z 0)
         then F32.of_Z 0 else F32.sub (pos_f s) step)) /\
  (forall (tgt : Z) (s : state) (tk : move_task_t),
      move_task_handle (move_task tgt s) = Some tk ->
      let step := F32.div (F32.mul (F32.of_Z 100) (F32.of_Z MOVE_TICK_MS))
                    (F32.of_Z (full_travel_ms s)) in
      tk_pc tk = MOVE_OPENING step \/ tk_pc tk = MOVE_CLOSING step) /\
  MOVE_TICK_MS = 100 /\
  full_travel_ms opening_run = 10000 /\
  move_step 10000 = F32.of_Z 1 /\
  pos_f opening_run = F32.of_Z 0 /\
  (forall k : nat,
      (1 <= k <= 100)%nat ->
      let s := slices k opening_run in
      pos_f s = F32.of_Z (Z.of_nat k) /\
      uint8_value (current_position s) = Z.of_nat k /\
      uint8_value (position_state s) = 1 /\
      relay_open s = true /\ relay_close s = false) /\
  pos_f (slices 101 opening_run) = F32.of_Z 100 /\
  current_position (slices 101 opening_run) = HOMEKIT_UINT8 100 /\
  position_state (slices 101 opening_run) = HOMEKIT_UINT8 2 /\
  relay_open (slices 101 opening_run) = false /\
  relay_close (slices 101 opening_run) = false /\
  move_task_handle (slices 101 opening_run) = None.
Proof.
  split; [|split; [|split; [|split; [|split; [|split; [|split; [|split]]]]]]].
  - intros tgt step s H. exact (proj1 (opening_loop_advance tgt step s H)).
  - intros tgt step s H. exact (proj1 (closing_loop_advance tgt step s H)).
  - intros tgt s tk H. exact (move_task_step tgt s tk H).
  - reflexivity.
  - vm_compute. reflexivity.
  - vm_compute. reflexivity.
  - vm_compute. reflexivity.
  - intros k Hk s.
    assert (Hin : In k (List.seq 1 100)) by (apply in_seq; lia).
    pose proof (proj1 (forallb_forall opening_tick_ok (List.seq 1 100))
                  opening_run_ticks k Hin) as H.
    unfold opening_tick_ok in H. fold s in H.
    apply andb_prop in H. destruct H as [H H5].
    apply andb_prop in H. destruct H as [H H4].
    apply andb_prop in H. destruct H as [H H3].
    apply andb_prop in H. destruct H as [H1 H2].
    apply f32_same_eq in H1. apply Z.eqb_eq in H2. apply Z.eqb_eq in H3.
    apply negb_true_iff in H5. repeat split; assumption.
  - vm_compute. repeat split.
Qed.

Lemma per_tick_increment_witness :
  opening_cond 100 (move_task_slice opening_run) = true /\
  pos_f (opening_loop 100 (F32.of_Z 1) (move_task_slice opening_run))
  = (if F32.ltb (F32.of_Z 100)
          (F32.add (pos_f (move_task_slice opening_run)) (F32.of_Z 1))
     then F32.of_Z 100
     else F32.add (pos_f (move_task_slice opening_run)) (F32.of_Z 1)).
Proof.
  assert (H : opening_cond 100 (move_task_slice opening_run) = true)
    by (vm_compute; reflexivity).
  split; [exact H|].
  exact (proj1 per_tick_increment 100 (F32.of_Z 1)
           (move_task_slice opening_run) H).
Defined.

(** * Further properties of the program *)

(** ** Calibration storage *)


(** X2. With NVS working, what [calib_save] writes is what [calib_load]
    reads back, provided it lies in [3000, 120000]; a saved value outside
    that range is refused at the load, which then leaves [*out_ms] as it
    was. *)
Theorem calib_save_load :
  forall (s : state) (ms out_ms : Z),
    calib_load nvs_healthy (calib_save nvs_healthy ms s) out_ms
    = if (3000 <=? ms) && (ms <=? 120000)
      then (ESP_OK, ms) else (ESP_ERR_INVALID_STATE, out_ms).
Proof.
  intros s ms out_ms. unfold calib_load, calib_save, nvs_get_u32.
  cbn [nvs_healthy nvs_open_result nvs_get_result nvs_set_result
       nvs_commit_result err_eqb negb nvs_full_ms set_nvs_full_ms andb].
  reflexivity.
Qed.

(** What a calibration run of at least three seconds leaves in memory and,
    with NVS working, in storage. *)
Lemma calib_finish_healthy (now : Z) (s : state) :
  calib_state s = CAL_RUNNING ->
  halted s = false ->
  3000 <= Z.quot (now - calib_start_us s) 1000 ->
  let s' := calib_finish_on_stop nvs_healthy now s in
  full_travel_ms s' = Z.quot (now - calib_start_us s) 1000 mod 2 ^ 32 /\
  nvs_full_ms s' = Some (Z.quot (now - calib_start_us s) 1000 mod 2 ^ 32) /\
  calib_state s' = CAL_IDLE /\
  halted s' = false.
Proof.
  intros Hc Hh He s'. subst s'.
  unfold calib_finish_on_stop. rewrite Hc. cbn [calib_eqb negb].
  change (calib_start_us (motor_all_off s)) with (calib_start_us s).
  rewrite three_seconds_test.
  destruct (Z.ltb_spec (Z.quot (now - calib_start_us s) 1000) 3000); [lia|].
  unfold calib_save, motor_all_off, seq.
  cbn [nvs_healthy nvs_open_result nvs_set_result nvs_commit_result
       err_eqb negb].
  fields. rewrite Hh. fields. repeat split. exact Hh.
Qed.

(** X4. A calibration accepted with NVS working survives a power cycle
    exactly when it is at most 120000 ms: after the next power-on
    [full_travel_ms] is the measured duration if it lies in
    [3000, 120000], and the default 18000 if it is longer. *)
Theorem calibration_after_power_cycle :
  forall (now : Z) (s : state),
    calib_state s = CAL_RUNNING ->
    halted s = false ->
    3000 <= Z.quot (now - calib_start_us s) 1000 < 2 ^ 32 ->
    full_travel_ms
      (power_on nvs_healthy
         (nvs_full_ms (calib_finish_on_stop nvs_healthy now s)))
    = if Z.quot (now - calib_start_us s) 1000 <=? 120000
      then Z.quot (now - calib_start_us s) 1000
      else FULL_TRAVEL_MS_DEFAULT.
Proof.
  intros now s Hc Hh He.
  destruct (calib_finish_healthy now s Hc Hh (proj1 He)) as (_ & Hn & _).
  rewrite Hn. rewrite Z.mod_small by lia.
  set (e := Z.quot (now - calib_start_us s) 1000) in *.
  unfold power_on, app_main, seq.
  change (calib_load nvs_healthy
            (set_pix_state PIX_WIFI_WAIT (gpio_init_motor (boot_image (Some e)))) 0)
    with (calib_load nvs_healthy (calib_save nvs_healthy e (boot_image None)) 0).
  rewrite calib_save_load.
  destruct (Z.leb_spec 3000 e); [|lia].
  destruct (Z.leb_spec e 120000); cbn [andb err_eqb]; reflexivity.
Qed.

Lemma calibration_after_power_cycle_witness :
  calib_state running_state = CAL_RUNNING /\
  halted running_state = false /\
  3000 <= Z.quot (12000000 - calib_start_us running_state) 1000 < 2 ^ 32 /\
  full_travel_ms
    (power_on nvs_healthy
       (nvs_full_ms (calib_finish_on_stop nvs_healthy 12000000 running_state)))
  = 12000.
Proof.
  assert (Hc : calib_state running_state = CAL_RUNNING) by reflexivity.
  assert (Hh : halted running_state = false) by reflexivity.
  assert (He : 3000 <= Z.quot (12000000 - calib_start_us running_state) 1000
               < 2 ^ 32) by (vm_compute; split; [discriminate | reflexivity]).
  split; [exact Hc|]. split; [exact Hh|]. split; [exact He|].
  exact (calibration_after_power_cycle 12000000 running_state Hc Hh He).
Defined.

(** ** Who energizes an output *)

(** Case analysis on every test of the goal, pushing what is known of the
    starting state through the setters. *)
Ltac drive_cases Ec Eh Eo Ecl :=
  repeat (unfold seq, skip; fields;
          rewrite ?Ec, ?Eh, ?Eo, ?Ecl; fields;
          match goal with
          | |- context [if ?b then _ else _] => destruct b
          | |- context [match ?x with _ => _ end] => destruct x
          end);
  unfold seq, skip; fields; rewrite ?Ec, ?Eh, ?Eo, ?Ecl; fields.

Lemma drive_accounted_handle (ev : event) (s : state) :
  drive_accounted s = true -> drive_accounted (handle ev s) = true.
Proof.
  unfold drive_accounted, opening_task, closing_task.
  destruct (calib_state s) eqn:Ec;
    destruct (move_task_handle s) as [[tgt [|st|st]]|] eqn:Eh;
    destruct (relay_open s) eqn:Eo; destruct (relay_close s) eqn:Ecl;
    cbn [negb orb andb calib_eqb]; rewrite ?andb_false_r;
    try discriminate;
    destruct ev as [v|v|v|e now|e|e io now|]; try destruct e;
    lay_open; drive_cases Ec Eh Eo Ecl;
    rewrite ?Ec; cbn [calib_eqb orb];
    intros H; first [reflexivity | exact H | discriminate Eh].
Qed.

Lemma drive_accounted_run (evs : list event) :
  forall s, drive_accounted s = true -> drive_accounted (run evs s) = true.
Proof.
  induction evs as [|ev evs IH]; intros s H; cbn [run]; [exact H|].
  apply IH. unfold step. destruct (halted s); [exact H|].
  now apply drive_accounted_handle.
Qed.

Lemma drive_accounted_power_on (io : nvs_io) (stored : option Z) :
  drive_accounted (power_on io stored) = true.
Proof.
  unfold power_on, app_main, gpio_init_motor, motor_all_off, seq.
  destruct (calib_load _ _ _) as [err ms]. destruct (err_eqb _ _); reflexivity.
Qed.

(** X5. In every state the program reaches from power-on, the direction
    reported agrees with the outputs: the open output is energized only
    while [position_state] is 1 (Opening), the close output only while it
    is 0 (Closing), and so both are off whenever Stopped is reported. *)
Theorem direction_agrees_with_outputs :
  forall (io : nvs_io) (stored : option Z) (evs : list event),
    let s := run evs (power_on io stored) in
    (relay_open s = false \/ uint8_value (position_state s) = 1) /\
    (relay_close s = false \/ uint8_value (position_state s) = 0) /\
    (uint8_value (position_state s) <> 2 \/
     (relay_open s = false /\ relay_close s = false)).
Proof.
  intros io stored evs s.
  assert (H : drive_accounted s = true)
    by apply drive_accounted_run, drive_accounted_power_on.
  clearbody s. unfold drive_accounted in H.
  apply andb_prop in H. destruct H as [Ho Hc].
  destruct (relay_open s), (relay_close s); cbn [negb orb] in Ho, Hc;
    try (apply andb_prop in Ho; destruct Ho as [Ho _]; apply Z.eqb_eq in Ho);
    try (apply andb_prop in Hc; destruct Hc as [Hc _]; apply Z.eqb_eq in Hc);
    repeat split; auto; left; lia.
Qed.

(** X6. In every state the program reaches from power-on, an energized
    output has an owner: the close output is on only while the movement
    task is asleep in its closing loop, the open output only while the task
    is asleep in its opening loop or a calibration run is in progress. With
    no movement task and no calibration run both outputs are off. *)
Theorem energized_output_has_owner :
  forall (io : nvs_io) (stored : option Z) (evs : list event),
    let s := run evs (power_on io stored) in
    (relay_close s = false \/ closing_task s = true) /\
    (relay_open s = false \/ calib_state s = CAL_RUNNING
     \/ opening_task s = true) /\
    (move_task_handle s <> None \/ calib_state s = CAL_RUNNING \/
     (relay_open s = false /\ relay_close s = false)).
Proof.
  intros io stored evs s.
  assert (H : drive_accounted s = true)
    by apply drive_accounted_run, drive_accounted_power_on.
  clearbody s. unfold drive_accounted, opening_task, closing_task in *.
  apply andb_prop in H. destruct H as [Ho Hc].
  destruct (calib_state s); destruct (move_task_handle s) as [[tgt [|st|st]]|];
    destruct (relay_open s), (relay_close s);
    cbn [negb orb andb calib_eqb] in Ho, Hc;
    rewrite ?andb_false_r in Ho; rewrite ?andb_false_r in Hc;
    try congruence;
    repeat split;
    first [ left; reflexivity | left; discriminate | right; reflexivity
          | right; left; reflexivity | right; right; reflexivity
          | right; right; split; reflexivity ].
Qed.

(** ** The transitions of the calibration phase *)

Ltac phase_cases Ec :=
  repeat (unfold seq, skip; fields; rewrite ?Ec; fields;
          match goal with
          | |- context [if ?b then _ else _] => destruct b
          | |- context [match ?x with _ => _ end] => destruct x
          end);
  unfold seq, skip; fields; rewrite ?Ec; fields; rewrite ?Ec.

(** X7. The calibration phase changes in three ways only. A long press of
    the stop button or the recalibrate switch set to true arms from Idle
    and returns to Idle from Armed and from Running. Otherwise only a
    single press of the open button leaves Armed (for Running) and only a
    single press of the stop button leaves Running (for Idle). Remote
    targets, hold requests, the close button, the double press and the
    turns of the movement task never change the phase. *)
Theorem calib_state_transitions :
  forall (ev : event) (s : state),
    (toggles_calibration ev = true /\
     calib_state (handle ev s)
     = if calib_eqb (calib_state s) CAL_IDLE then CAL_ARMED else CAL_IDLE) \/
    (toggles_calibration ev = false /\
     (calib_state (handle ev s) = calib_state s \/
      (calib_state s = CAL_ARMED /\ calib_state (handle ev s) = CAL_RUNNING /\
       exists now, ev = Ev_btn_open button_event_single_press now) \/
      (calib_state s = CAL_RUNNING /\ calib_state (handle ev s) = CAL_IDLE /\
       exists io now, ev = Ev_btn_stop button_event_single_press io now))).
Proof.
  intros ev s. unfold toggles_calibration.
  destruct (calib_state s) eqn:Ec;
    destruct ev as [[f b n]|[f b n]|[f b n]|e now|e|e io now|];
    try destruct e; try destruct f; try destruct b;
    lay_open; phase_cases Ec;
    first [ left; split; reflexivity
          | right; split;
            [ reflexivity
            | first [ left; reflexivity
                    | right; left; repeat split; eexists; reflexivity
                    | right; right; repeat split;
                      eexists; eexists; reflexivity ] ] ].
Qed.

(** ** What a calibration alone may change *)

(** X8. The full-travel duration in memory, the record in NVS and the
    abort of the firmware are touched by one path only: a single press of
    the stop button that finishes a calibration run of at least three
    seconds. Every other input, and every turn of the movement task,
    leaves all three as they were. *)
Theorem duration_changed_only_by_calibration :
  forall (ev : event) (s : state),
    (exists io now,
        ev = Ev_btn_stop button_event_single_press io now /\
        calib_state s = CAL_RUNNING /\
        3000000 <= now - calib_start_us s) \/
    (full_travel_ms (handle ev s) = full_travel_ms s /\
     nvs_full_ms (handle ev s) = nvs_full_ms s /\
     halted (handle ev s) = halted s).
Proof.
  intros ev s.
  destruct ev as [v|v|v|e now|e|e io now|];
    try (right; lay_open; cases; repeat split; reflexivity).
  destruct e;
    try (right; lay_open; cases; repeat split; reflexivity).
  destruct (calib_state s) eqn:Ec;
    try (right; cbn [handle]; unfold btn_stop_callback; rewrite Ec;
         cbn [calib_eqb]; unfold hold_position_set; cases;
         repeat split; reflexivity).
  destruct (Z.ltb_spec (now - calib_start_us s) (3 * 1000 * 1000)) as [Hs|Hl].
  - right. cbn [handle]. unfold btn_stop_callback, calib_finish_on_stop.
    rewrite Ec. cbn [calib_eqb negb].
    change (calib_start_us (motor_all_off s)) with (calib_start_us s).
    apply Z.ltb_lt in Hs. rewrite Hs.
    unfold calib_cancel.
    change (calib_state (motor_all_off s)) with (calib_state s).
    rewrite Ec. cbn [calib_eqb]. repeat split.
  - left. exists io, now. repeat split; lia.
Qed.

(** ** A calibration run that is not accepted *)

(** X9. A calibration run started from Armed and stopped before three
    seconds have passed ends in Idle with both outputs off and no movement
    task, the duration and the position as they were, and
    [position_state] still 1: the Opening that the start of the run
    reported is the last direction notified, and no Stopped follows. *)
Theorem short_calibration_leaves_opening :
  forall (s : state) (io : nvs_io) (t0 t1 : Z),
    calib_state s = CAL_ARMED ->
    t1 - t0 < 3000000 ->
    let s' := btn_stop_callback button_event_single_press io t1
                (btn_open_callback button_event_single_press t0 s) in
    calib_state s' = CAL_IDLE /\
    relay_open s' = false /\ relay_close s' = false /\
    move_task_handle s' = None /\
    position_state s' = HOMEKIT_UINT8 1 /\
    notified s' = (CH_position_state, HOMEKIT_UINT8 1) :: notified s /\
    full_travel_ms s' = full_travel_ms s /\
    nvs_full_ms s' = nvs_full_ms s /\
    pos_f s' = pos_f s /\
    current_position s' = current_position s.
Proof.
  intros s io t0 t1 H Ht s'. subst s'.
  destruct (calib_start_run_from_armed t0 s H)
    as (E & A1 & A2 & A3 & _ & _ & A6 & A7 & _).
  rewrite E.
  assert (F : full_travel_ms (calib_start_run t0 s) = full_travel_ms s /\
              nvs_full_ms (calib_start_run t0 s) = nvs_full_ms s /\
              pos_f (calib_start_run t0 s) = pos_f s /\
              current_position (calib_start_run t0 s) = current_position s).
  { unfold calib_start_run, delete_move_task, seq. rewrite H.
    cbn [calib_eqb negb]. fields.
    destruct (move_task_handle s); repeat split. }
  destruct F as (F1 & F2 & F3 & F4).
  set (s1 := calib_start_run t0 s) in *. clearbody s1.
  unfold btn_stop_callback, calib_finish_on_stop. rewrite A1.
  cbn [calib_eqb negb].
  change (calib_start_us (motor_all_off s1)) with (calib_start_us s1).
  rewrite A2.
  assert (L : (t1 - t0 <? 3 * 1000 * 1000) = true) by (apply Z.ltb_lt; lia).
  rewrite L. unfold calib_cancel.
  change (calib_state (motor_all_off s1)) with (calib_state s1).
  rewrite A1. cbn [calib_eqb]. unfold motor_all_off, seq. fields.
  rewrite A3, A6, A7, F1, F2, F3, F4. repeat split.
Qed.

Lemma short_calibration_leaves_opening_witness :
  calib_state armed_state = CAL_ARMED /\
  1800000 - 0 < 3000000 /\
  position_state
    (btn_stop_callback button_event_single_press nvs_healthy 1800000
       (btn_open_callback button_event_single_press 0 armed_state))
  = HOMEKIT_UINT8 1.
Proof.
  assert (H : calib_state armed_state = CAL_ARMED) by reflexivity.
  assert (Ht : 1800000 - 0 < 3000000) by reflexivity.
  destruct (short_calibration_leaves_opening armed_state nvs_healthy
              0 1800000 H Ht) as (_ & _ & _ & _ & A & _).
  split; [exact H|]. split; [exact Ht | exact A].
Defined.

(** ** Movement commands *)

Lemma start_move_to_commanded (T : Z) (s : state) :
  let s' := start_move_to T s in
  move_task_handle s'
  = (if T =? F32.to_uint8 (pos_f s) then None
     else Some (mk_task T MOVE_ENTRY)) /\
  relay_open s' = false /\ relay_close s' = false /\
  pos_f s' = pos_f s /\
  current_position s' = current_position s /\
  target_position s' = target_position s.
Proof.
  unfold start_move_to, delete_move_task, motor_all_off, seq.
  destruct (move_task_handle s) as [tk|] eqn:E; fields;
    destruct (T =? F32.to_uint8 (pos_f s)); fields; rewrite ?E;
    repeat split.
Qed.

Lemma notify_target_and_move_commanded (T : Z) (s : state) :
  commanded T s (notify_target_and_move T s).
Proof.
  unfold commanded, notify_target_and_move, seq.
  destruct (negb (uint8_value (target_position s) =? T)) eqn:E.
  - destruct (start_move_to_commanded T
                (homekit_characteristic_notify CH_target_position
                   (set_target_position (HOMEKIT_UINT8 T) s)))
      as (A & B & C & D & F & G).
    rewrite G. repeat split; assumption.
  - apply negb_false_iff, Z.eqb_eq in E.
    destruct (start_move_to_commanded T s) as (A & B & C & D & F & G).
    rewrite G. repeat split; assumption.
Qed.

(** X10. With calibration Idle, a remote target [T], a single press of
    the open button (100), of the close button (0) and a double press of
    the stop button (50) all end the same way: [target_position] holds the
    commanded target, both outputs are off, the position estimate is kept
    as it was (a superseded task does not snap it), and whatever task was
    in flight is replaced by a fresh task toward the new target, or by
    none when the integer part of the position already is that target. *)
Theorem movement_commands :
  forall (s : state) (T now : Z) (io : nvs_io),
    calib_state s = CAL_IDLE ->
    commanded T s (target_position_set (HOMEKIT_UINT8 T) s) /\
    commanded 100 s (btn_open_callback button_event_single_press now s) /\
    commanded 0 s (btn_close_callback button_event_single_press s) /\
    commanded MID_POSITION s
      (btn_stop_callback button_event_double_press io now s).
Proof.
  intros s T now io H.
  unfold btn_open_callback, btn_close_callback, btn_stop_callback,
    start_move_open, start_move_close, start_move_mid.
  rewrite H. cbn [calib_eqb negb].
  split; [|repeat split; apply notify_target_and_move_commanded].
  unfold commanded, target_position_set.
  cbn [format HOMEKIT_UINT8 format_eqb negb uint8_value]. unfold seq.
  destruct (start_move_to_commanded T
              (set_target_position (HOMEKIT_UINT8 T) s))
    as (A & B & C & D & F & G).
  unfold homekit_characteristic_notify. fields.
  rewrite G. repeat split; assumption.
Qed.

Lemma movement_commands_witness :
  calib_state travelling_state = CAL_IDLE /\
  commanded 0 travelling_state
    (btn_close_callback button_event_single_press travelling_state).
Proof.
  assert (H : calib_state travelling_state = CAL_IDLE)
    by (vm_compute; reflexivity).
  split; [exact H|].
  exact (proj1 (proj2 (proj2
           (movement_commands travelling_state 7 0 nvs_healthy H)))).
Defined.

(** ** One pass of a loop of the movement task *)

(** X11. After a pass of the opening loop [pos_f] is not above 100, and
    after a pass of the closing loop it is not below 0. Either pass leaves
    [current_position] at the position rounded half up,
    [(uint8_t)(pos_f + 0.5f)], sends one notification of it if that value
    is new and none otherwise, and writes no relay. *)
Theorem loop_pass_clamps_and_reports :
  forall (step : F32.t) (s : state),
    let o := opening_body step s in
    let c := closing_body step s in
    (F32.ltb (F32.of_Z 100) (pos_f o) = false /\
     uint8_value (current_position o)
     = F32.to_uint8 (F32.add (pos_f o) F32.half) /\
     notified o
     = (if uint8_value (current_position o)
           =? uint8_value (current_position s)
        then notified s
        else (CH_current_position, current_position o) :: notified s) /\
     gpio_trace o = gpio_trace s) /\
    (F32.ltb (pos_f c) (F32.of_Z 0) = false /\
     uint8_value (current_position c)
     = F32.to_uint8 (F32.add (pos_f c) F32.half) /\
     notified c
     = (if uint8_value (current_position c)
           =? uint8_value (current_position s)
        then notified s
        else (CH_current_position, current_position c) :: notified s) /\
     gpio_trace c = gpio_trace s).
Proof.
  intros step s o c. subst o c.
  unfold opening_body, closing_body, report_current_position, seq.
  split.
  - destruct (F32.ltb (F32.of_Z 100) (F32.add (pos_f s) step)) eqn:L; fields.
    + set (cp := F32.to_uint8 (F32.add (F32.of_Z 100) F32.half)).
      destruct (cp =? uint8_value (current_position s)) eqn:E;
        cbn [negb]; fields; rewrite ?E, ?Z.eqb_refl.
      * apply Z.eqb_eq in E. repeat split. symmetry. exact E.
      * repeat split.
    + set (cp := F32.to_uint8 (F32.add (F32.add (pos_f s) step) F32.half)).
      destruct (cp =? uint8_value (current_position s)) eqn:E;
        cbn [negb]; fields; rewrite ?E, ?Z.eqb_refl.
      * apply Z.eqb_eq in E. repeat split; [exact L | symmetry; exact E].
      * repeat split. exact L.
  - destruct (F32.ltb (F32.sub (pos_f s) step) (F32.of_Z 0)) eqn:L; fields.
    + set (cp := F32.to_uint8 (F32.add (F32.of_Z 0) F32.half)).
      destruct (cp =? uint8_value (current_position s)) eqn:E;
        cbn [negb]; fields; rewrite ?E, ?Z.eqb_refl.
      * apply Z.eqb_eq in E. repeat split. symmetry. exact E.
      * repeat split.
    + set (cp := F32.to_uint8 (F32.add (F32.sub (pos_f s) step) F32.half)).
      destruct (cp =? uint8_value (current_position s)) eqn:E;
        cbn [negb]; fields; rewrite ?E, ?Z.eqb_refl.
      * apply Z.eqb_eq in E. repeat split; [exact L | symmetry; exact E].
      * repeat split. exact L.
Qed.

(** ** A turn of the movement task *)

Lemma opening_loop_turn (tgt : Z) (step : F32.t) (s : state) :
  let s' := opening_loop tgt step s in
  (move_task_handle s' = Some (mk_task tgt (MOVE_OPENING step)) /\
   gpio_trace s' = gpio_trace s /\
   position_state s' = position_state s) \/
  at_rest_at tgt s'.
Proof.
  unfold opening_loop. destruct (opening_cond tgt s).
  - left. unfold opening_body, report_current_position, seq.
    destruct (negb _); repeat split.
  - right. destruct (move_task_finish_effect tgt s)
      as (A & B & C & D & E & F & _).
    unfold at_rest_at. rewrite C. repeat split; assumption.
Qed.

Lemma closing_loop_turn (tgt : Z) (step : F32.t) (s : state) :
  let s' := closing_loop tgt step s in
  (move_task_handle s' = Some (mk_task tgt (MOVE_CLOSING step)) /\
   gpio_trace s' = gpio_trace s /\
   position_state s' = position_state s) \/
  at_rest_at tgt s'.
Proof.
  unfold closing_loop. destruct (closing_cond tgt s).
  - left. unfold closing_body, report_current_position, seq.
    destruct (negb _); repeat split.
  - right. destruct (move_task_finish_effect tgt s)
      as (A & B & C & D & E & F & _).
    unfold at_rest_at. rewrite C. repeat split; assumption.
Qed.

(** X12. A turn of a movement task that is asleep in one of its loops has
    two outcomes only. Either the same task sleeps again, with the same
    target, direction and step, no relay written and the direction
    reported unchanged; or the task is over and the shade stands at the
    task's target: position and reported position equal to it, Stopped,
    both outputs off. A task never changes direction or target. *)
Theorem task_turn_outcomes :
  forall (s : state) (tk : move_task_t),
    move_task_handle s = Some tk ->
    tk_pc tk <> MOVE_ENTRY ->
    let s' := move_task_slice s in
    (move_task_handle s' = Some tk /\
     gpio_trace s' = gpio_trace s /\
     position_state s' = position_state s) \/
    at_rest_at (tk_tgt tk) s'.
Proof.
  intros s [tgt pc] Hh Hpc s'. subst s'.
  unfold move_task_slice. rewrite Hh. unfold move_task_resume.
  cbn [tk_pc tk_tgt] in *.
  destruct pc as [|step|step]; [congruence| |].
  - apply opening_loop_turn.
  - apply closing_loop_turn.
Qed.

Lemma task_turn_outcomes_witness :
  move_task_handle travelling_state
    = Some (mk_task 100 (MOVE_OPENING (move_step 18000))) /\
  (move_task_handle (move_task_slice travelling_state)
     = Some (mk_task 100 (MOVE_OPENING (move_step 18000))) /\
   gpio_trace (move_task_slice travelling_state)
     = gpio_trace travelling_state /\
   position_state (move_task_slice travelling_state)
     = position_state travelling_state \/
   at_rest_at 100 (move_task_slice travelling_state)).
Proof.
  assert (H : move_task_handle travelling_state
              = Some (mk_task 100 (MOVE_OPENING (move_step 18000))))
    by (vm_compute; reflexivity).
  split; [exact H|].
  exact (task_turn_outcomes travelling_state
           (mk_task 100 (MOVE_OPENING (move_step 18000))) H
           ltac:(discriminate)).
Defined.

(** ** Arming calibration during a movement *)

(** X13. Arming calibration while the movement task is asleep in one of
    its loops switches both outputs off and leaves the task alive. At its
    next turn the task takes the same branch and computes the same
    position and reported position as it would have without the arming,
    with the outputs still off: the position estimate keeps advancing
    while the motor no longer runs. *)
Theorem arming_leaves_task_running :
  forall (s : state) (tk : move_task_t),
    move_task_handle s = Some tk ->
    tk_pc tk <> MOVE_ENTRY ->
    calib_state s = CAL_IDLE ->
    let a := calib_enter s in
    calib_state a = CAL_ARMED /\
    relay_open a = false /\ relay_close a = false /\
    move_task_handle a = Some tk /\
    pos_f (move_task_slice a) = pos_f (move_task_slice s) /\
    current_position (move_task_slice a)
    = current_position (move_task_slice s) /\
    move_task_handle (move_task_slice a)
    = move_task_handle (move_task_slice s) /\
    relay_open (move_task_slice a) = false /\
    relay_close (move_task_slice a) = false.
Proof.
  intros s [tgt pc] Hh Hpc Hc a.
  assert (Ea : a = set_pix_state PIX_CALIBRATING
                     (set_calib_state CAL_ARMED (motor_all_off s))).
  { subst a. unfold calib_enter. rewrite Hc. reflexivity. }
  clearbody a. subst a. cbn [tk_pc] in Hpc.
  split; [reflexivity|]. split; [reflexivity|]. split; [reflexivity|].
  split; [exact Hh|].
  set (a := set_pix_state PIX_CALIBRATING
              (set_calib_state CAL_ARMED (motor_all_off s))).
  assert (Sa : move_task_slice a = move_task_resume (mk_task tgt pc) a).
  { unfold move_task_slice.
    change (move_task_handle a) with (move_task_handle s).
    rewrite Hh. reflexivity. }
  assert (Ss : move_task_slice s = move_task_resume (mk_task tgt pc) s).
  { unfold move_task_slice. rewrite Hh. reflexivity. }
  rewrite Sa, Ss. unfold move_task_resume. cbn [tk_pc tk_tgt].
  destruct pc as [|step|step]; [congruence| |].
  - unfold opening_loop.
    change (opening_cond tgt a) with (opening_cond tgt s).
    destruct (opening_cond tgt s).
    + unfold opening_body, report_current_position, seq.
      change (pos_f a) with (pos_f s).
      change (current_position a) with (current_position s).
      destruct (negb _); repeat split.
    + unfold move_task_finish, report_current_position, seq.
      change (current_position
                (set_pos_f (F32.of_Z tgt)
                   (homekit_characteristic_notify CH_position_state
                      (set_position_state (HOMEKIT_UINT8 2)
                         (motor_all_off a)))))
        with (current_position s).
      change (current_position
                (set_pos_f (F32.of_Z tgt)
                   (homekit_characteristic_notify CH_position_state
                      (set_position_state (HOMEKIT_UINT8 2)
                         (motor_all_off s)))))
        with (current_position s).
      destruct (negb _); repeat split.
  - unfold closing_loop.
    change (closing_cond tgt a) with (closing_cond tgt s).
    destruct (closing_cond tgt s).
    + unfold closing_body, report_current_position, seq.
      change (pos_f a) with (pos_f s).
      change (current_position a) with (current_position s).
      destruct (negb _); repeat split.
    + unfold move_task_finish, report_current_position, seq.
      change (current_position
                (set_pos_f (F32.of_Z tgt)
                   (homekit_characteristic_notify CH_position_state
                      (set_position_state (HOMEKIT_UINT8 2)
                         (motor_all_off a)))))
        with (current_position s).
      change (current_position
                (set_pos_f (F32.of_Z tgt)
                   (homekit_characteristic_notify CH_position_state
                      (set_position_state (HOMEKIT_UINT8 2)
                         (motor_all_off s)))))
        with (current_position s).
      destruct (negb _); repeat split.
Qed.

Lemma arming_leaves_task_running_witness :
  move_task_handle travelling_state
    = Some (mk_task 100 (MOVE_OPENING (move_step 18000))) /\
  calib_state travelling_state = CAL_IDLE /\
  pos_f (move_task_slice (calib_enter travelling_state))
  = pos_f (move_task_slice travelling_state) /\
  relay_open (move_task_slice (calib_enter travelling_state)) = false.
Proof.
  assert (H : move_task_handle travelling_state
              = Some (mk_task 100 (MOVE_OPENING (move_step 18000))))
    by (vm_compute; reflexivity).
  assert (Hc : calib_state travelling_state = CAL_IDLE)
    by (vm_compute; reflexivity).
  destruct (arming_leaves_task_running travelling_state
              (mk_task 100 (MOVE_OPENING (move_step 18000))) H
              ltac:(discriminate) Hc)
    as (_ & _ & _ & _ & A & _ & _ & B & _).
  split; [exact H|]. split; [exact Hc|]. split; [exact A | exact B].
Defined.

(** ** The three gestures at the default calibration *)

Lemma settled_spec (T : Z) (s : state) :
  settled T s = true -> at_rest_at T s.
Proof.
  unfold settled, at_rest_at. intros H.
  apply andb_prop in H. destruct H as [H H6].
  apply andb_prop in H. destruct H as [H H5].
  apply andb_prop in H. destruct H as [H H4].
  apply andb_prop in H. destruct H as [H H3].
  apply andb_prop in H. destruct H as [H1 H2].
  apply f32_same_eq in H1. apply Z.eqb_eq in H2. apply Z.eqb_eq in H3.
  apply negb_true_iff in H4. apply negb_true_iff in H5.
  destruct (move_task_handle s); [discriminate|].
  repeat split; assumption.
Qed.

Lemma buttons_settle_all :
  forallb
    (fun P : nat =>
       (full_travel_ms (rest_at (Z.of_nat P)) =? FULL_TRAVEL_MS_DEFAULT)
       && settled (Z.of_nat P) (rest_at (Z.of_nat P))
       && settled 100
            (slices 202
               (btn_open_callback button_event_single_press 0
                  (rest_at (Z.of_nat P))))
       && settled 0
            (slices 202
               (btn_close_callback button_event_single_press
                  (rest_at (Z.of_nat P))))
       && settled MID_POSITION
            (slices 202
               (btn_stop_callback button_event_double_press nvs_healthy 0
                  (rest_at (Z.of_nat P)))))
    (List.seq 0 101) = true.
Proof. vm_compute. reflexivity. Qed.

(** X15. With the default full-travel duration of 18000 ms and from rest
    at any whole position [P] from 0 to 100 (reached from power-on by a
    remote target), each button gesture brings the shade to its own
    target and stops it there: a single press of the open button ends at
    exactly 100, of the close button at exactly 0, and a double press of
    the stop button at exactly 50, in at most 202 turns of the movement
    task, with direction Stopped, both outputs off and no task left. *)
Theorem buttons_reach_their_targets :
  forall P : nat,
    (P <= 100)%nat ->
    full_travel_ms (rest_at (Z.of_nat P)) = FULL_TRAVEL_MS_DEFAULT /\
    at_rest_at (Z.of_nat P) (rest_at (Z.of_nat P)) /\
    at_rest_at 100
      (slices 202
         (btn_open_callback button_event_single_press 0
            (rest_at (Z.of_nat P)))) /\
    at_rest_at 0
      (slices 202
         (btn_close_callback button_event_single_press
            (rest_at (Z.of_nat P)))) /\
    at_rest_at MID_POSITION
      (slices 202
         (btn_stop_callback button_event_double_press nvs_healthy 0
            (rest_at (Z.of_nat P)))).
Proof.
  intros P HP.
  assert (Hin : In P (List.seq 0 101)) by (apply in_seq; lia).
  pose proof (proj1 (forallb_forall _ _) buttons_settle_all P Hin) as H.
  cbv beta in H.
  apply andb_prop in H. destruct H as [H H5].
  apply andb_prop in H. destruct H as [H H4].
  apply andb_prop in H. destruct H as [H H3].
  apply andb_prop in H. destruct H as [H1 H2].
  apply Z.eqb_eq in H1.
  split; [exact H1|].
  split; [|split; [|split]]; apply settled_spec; assumption.
Qed.

Lemma buttons_reach_their_targets_witness :
  (37 <= 100)%nat /\
  at_rest_at 100
    (slices 202
       (btn_open_callback button_event_single_press 0
          (rest_at (Z.of_nat 37)))).
Proof.
  assert (H : (37 <= 100)%nat) by lia.
  split; [exact H|].
  exact (proj1 (proj2 (proj2 (buttons_reach_their_targets 37 H)))).
Defined.

(** ** Commands that calibration does not hold back *)

Lemma start_move_to_frame (T : Z) (s : state) :
  calib_state (start_move_to T s) = calib_state s /\
  calib_start_us (start_move_to T s) = calib_start_us s /\
  full_travel_ms (start_move_to T s) = full_travel_ms s.
Proof.
  unfold start_move_to, delete_move_task, motor_all_off, seq.
  destruct (move_task_handle s) as [tk|]; fields;
    destruct (T =? F32.to_uint8 (pos_f s)); repeat split.
Qed.

(** X16. The remote setter does not look at the calibration phase. In
    Armed and in Running as in Idle, a target [T] is recorded, both
    outputs are switched off (the forced open drive of a calibration run
    included) and a fresh task toward [T] is created; the phase and the
    start timestamp of the run stay as they were, so the run goes on being
    timed. *)
Theorem remote_target_ignores_calibration :
  forall (s : state) (T : Z),
    commanded T s (target_position_set (HOMEKIT_UINT8 T) s) /\
    calib_state (target_position_set (HOMEKIT_UINT8 T) s) = calib_state s /\
    calib_start_us (target_position_set (HOMEKIT_UINT8 T) s)
    = calib_start_us s /\
    full_travel_ms (target_position_set (HOMEKIT_UINT8 T) s)
    = full_travel_ms s.
Proof.
  intros s T. unfold commanded, target_position_set.
  cbn [format HOMEKIT_UINT8 format_eqb negb uint8_value]. unfold seq.
  destruct (start_move_to_commanded T
              (set_target_position (HOMEKIT_UINT8 T) s))
    as (A & B & C & D & F & G).
  unfold homekit_characteristic_notify. fields. rewrite G.
  split; [repeat split; assumption|].
  destruct (start_move_to_frame T (set_target_position (HOMEKIT_UINT8 T) s))
    as (P1 & P2 & P3).
  rewrite P1, P2, P3. repeat split.
Qed.

Lemma move_task_finish_trace (tgt : Z) (s : state) :
  gpio_trace (move_task_finish tgt s)
  = (false, false) :: (false, relay_close s) :: gpio_trace s.
Proof.
  unfold move_task_finish, report_current_position, motor_all_off, seq.
  fields. destruct (negb _); reflexivity.
Qed.

(** X14. Arming calibration does not delete a movement task. If a task
    toward a target above the position has been created and has not yet
    had its first turn, that turn comes after the arming all the same: it
    reports Opening and energizes the open output while the phase is
    Armed, and leaves the output on unless the loop ends at once. *)
Theorem arming_before_first_turn :
  forall (s : state) (T : Z),
    move_task_handle s = Some (mk_task T MOVE_ENTRY) ->
    calib_state s = CAL_IDLE ->
    F32.to_uint8 (pos_f s) < T ->
    let s' := move_task_slice (calib_enter s) in
    calib_state s' = CAL_ARMED /\
    In (true, false) (gpio_trace s') /\
    In (CH_position_state, HOMEKIT_UINT8 1) (notified s') /\
    ((relay_open s' = true /\ relay_close s' = false /\
      move_task_handle s'
      = Some (mk_task T (MOVE_OPENING (move_step (full_travel_ms s))))) \/
     at_rest_at T s').
Proof.
  intros s T Hh Hc HT s'.
  assert (Ea : calib_enter s
               = set_pix_state PIX_CALIBRATING
                   (set_calib_state CAL_ARMED (motor_all_off s))).
  { unfold calib_enter. rewrite Hc. reflexivity. }
  set (a := set_pix_state PIX_CALIBRATING
              (set_calib_state CAL_ARMED (motor_all_off s))) in *.
  set (b := motor_drive_open true
              (set_pix_state PIX_OPENING
                 (homekit_characteristic_notify CH_position_state
                    (set_position_state (HOMEKIT_UINT8 1) a)))).
  assert (G : (T >? F32.to_uint8 (pos_f s)) = true)
    by (rewrite Z.gtb_ltb; apply Z.ltb_lt; exact HT).
  assert (Es : s' = opening_loop T (move_step (full_travel_ms s)) b).
  { subst s'. rewrite Ea. unfold move_task_slice.
    change (move_task_handle a) with (move_task_handle s). rewrite Hh.
    unfold move_task_resume. cbn [tk_pc tk_tgt]. unfold move_task.
    change (pos_f a) with (pos_f s).
    change (full_travel_ms a) with (full_travel_ms s).
    rewrite G. reflexivity. }
  clearbody s'. subst s'.
  assert (Bt : gpio_trace b = (true, false) :: (false, false)
                                :: gpio_trace a) by reflexivity.
  assert (Bo : relay_open b = true) by reflexivity.
  assert (Bc : relay_close b = false) by reflexivity.
  assert (Bn : notified b = (CH_position_state, HOMEKIT_UINT8 1)
                              :: notified a) by reflexivity.
  assert (Bs : calib_state b = CAL_ARMED) by reflexivity.
  clearbody b. unfold opening_loop.
  destruct (opening_cond T b).
  - unfold opening_body, report_current_position, seq.
    destruct (negb _); fields; rewrite ?Bt, ?Bo, ?Bc, ?Bn, ?Bs;
      (split; [reflexivity|]); (split; [left; reflexivity|]);
      (split; [cbn [In]; auto|]); left; repeat split.
  - destruct (move_task_finish_effect T b) as (A & B & C & D & E & F & _).
    split.
    { unfold move_task_finish, report_current_position, seq. fields.
      destruct (negb _); exact Bs. }
    split.
    { rewrite move_task_finish_trace, Bt. cbn [In]. auto. }
    split.
    { unfold move_task_finish, report_current_position, motor_all_off, seq.
      fields. destruct (negb _); fields; rewrite Bn; cbn [In]; auto. }
    right. unfold at_rest_at. rewrite C. repeat split; assumption.
Qed.

Lemma arming_before_first_turn_witness :
  move_task_handle (target_position_set (HOMEKIT_UINT8 100) fresh_state)
    = Some (mk_task 100 MOVE_ENTRY) /\
  calib_state (target_position_set (HOMEKIT_UINT8 100) fresh_state)
    = CAL_IDLE /\
  calib_state
    (move_task_slice
       (calib_enter (target_position_set (HOMEKIT_UINT8 100) fresh_state)))
    = CAL_ARMED /\
  In (true, false)
    (gpio_trace
       (move_task_slice
          (calib_enter
             (target_position_set (HOMEKIT_UINT8 100) fresh_state)))).
Proof.
  assert (Hh : move_task_handle
                 (target_position_set (HOMEKIT_UINT8 100) fresh_state)
               = Some (mk_task 100 MOVE_ENTRY)) by (vm_compute; reflexivity).
  assert (Hc : calib_state
                 (target_position_set (HOMEKIT_UINT8 100) fresh_state)
               = CAL_IDLE) by (vm_compute; reflexivity).
  assert (HT : F32.to_uint8
                 (pos_f (target_position_set (HOMEKIT_UINT8 100) fresh_state))
               < 100) by (vm_compute; reflexivity).
  destruct (arming_before_first_turn
              (target_position_set (HOMEKIT_UINT8 100) fresh_state) 100
              Hh Hc HT) as (A & B & _).
  split; [exact Hh|]. split; [exact Hc|]. split; [exact A | exact B].
Defined.

(** ** The state after power-on *)

Lemma calib_load_ok_stored (io : nvs_io) (s : state) (out_ms v : Z) :
  calib_load io s out_ms = (ESP_OK, v) ->
  nvs_full_ms s = Some v /\ nvs_open_result io = ESP_OK.
Proof.
  unfold calib_load, nvs_get_u32.
  destruct (nvs_open_result io) eqn:Eo; cbn [err_eqb negb];
    try (intros H; inversion H; fail).
  destruct (err_eqb (nvs_get_result io) ESP_OK) eqn:Eg.
  - destruct (nvs_full_ms s) as [x|]; cbn [err_eqb andb].
    + destruct ((3000 <=? x) && (x <=? 120000)); intros H; inversion H.
      subst. split; reflexivity.
    + intros H; inversion H.
  - rewrite Eg. cbn [andb]. intros H; inversion H.
Qed.

(** What power-on leaves in [full_travel_ms], case by case. *)
Lemma power_on_full_travel_exact (io : nvs_io) (stored : option Z) :
  full_travel_ms (power_on io stored)
  = match stored with
    | Some v =>
        if err_eqb (nvs_open_result io) ESP_OK
           && err_eqb (nvs_get_result io) ESP_OK
           && (3000 <=? v) && (v <=? 120000)
        then v else FULL_TRAVEL_MS_DEFAULT
    | None => FULL_TRAVEL_MS_DEFAULT
    end.
Proof.
  unfold power_on, app_main, seq.
  set (s0 := set_pix_state PIX_WIFI_WAIT
               (gpio_init_motor (boot_image stored))).
  assert (Hn : nvs_full_ms s0 = stored) by reflexivity.
  assert (Hf : full_travel_ms s0 = FULL_TRAVEL_MS_DEFAULT) by reflexivity.
  clearbody s0. unfold calib_load, nvs_get_u32. rewrite Hn.
  destruct (err_eqb (nvs_open_result io) ESP_OK) eqn:Eo; cbn [negb andb].
  - destruct (err_eqb (nvs_get_result io) ESP_OK) eqn:Eg.
    + destruct stored as [v|]; cbn [err_eqb andb]; [|exact Hf].
      destruct (3000 <=? v), (v <=? 120000); cbn [andb err_eqb];
        solve [reflexivity | exact Hf].
    + rewrite Eg. cbn [andb err_eqb]. destruct stored; exact Hf.
  - rewrite Eo. destruct stored; exact Hf.
Qed.

(** X3. Whatever NVS holds or answers, power-on ends with
    [full_travel_ms] inside [3000, 120000]: it is the stored value when
    NVS opens, the read succeeds and the value lies in [3000, 120000], and
    the default 18000 in every other case. Both outputs are off, the phase
    is Idle, and there is no movement task. *)
Theorem power_on_duration :
  forall (io : nvs_io) (stored : option Z),
    full_travel_ms (power_on io stored)
    = match stored with
      | Some v =>
          if err_eqb (nvs_open_result io) ESP_OK
             && err_eqb (nvs_get_result io) ESP_OK
             && (3000 <=? v) && (v <=? 120000)
          then v else FULL_TRAVEL_MS_DEFAULT
      | None => FULL_TRAVEL_MS_DEFAULT
      end /\
    3000 <= full_travel_ms (power_on io stored) <= 120000 /\
    (full_travel_ms (power_on io stored) = FULL_TRAVEL_MS_DEFAULT \/
     (stored = Some (full_travel_ms (power_on io stored)) /\
      nvs_open_result io = ESP_OK)) /\
    relay_open (power_on io stored) = false /\
    relay_close (power_on io stored) = false /\
    calib_state (power_on io stored) = CAL_IDLE /\
    move_task_handle (power_on io stored) = None.
Proof.
  intros io stored. split; [apply power_on_full_travel_exact|].
  unfold power_on, app_main, seq.
  destruct (calib_load io _ 0) as [err ms] eqn:E.
  destruct err; cbn [err_eqb];
    try (cbn; unfold FULL_TRAVEL_MS_DEFAULT;
         repeat split; try lia; left; reflexivity).
  pose proof (calib_load_ok _ _ _ _ E) as R.
  apply calib_load_ok_stored in E. destruct E as [E1 E2].
  change (nvs_full_ms (set_pix_state PIX_WIFI_WAIT
            (gpio_init_motor (boot_image stored)))) with stored in E1.
  cbn. repeat split; try lia. right. split; assumption.
Qed.

(** ** Movement commands under preemption *)

(** A thread that goes through [start_move_to] without being preempted,
    with no task in flight, does to the statics what [start_move_to]
    does, and creates a task exactly when [start_move_to] does. *)
Lemma caller_unpreempted (s : state) (T : Z) :
  move_task_handle s = None ->
  let m' := conc_run [Run_caller 0; Run_caller 0; Run_caller 0]
              (mk_machine s None [] [mk_caller T SM_test] 0) in
  set_move_task_handle None (mem m')
  = set_move_task_handle None (start_move_to T s) /\
  tasks m'
  = match move_task_handle (start_move_to T s) with
    | Some tk => [mk_live 0 (tk_tgt tk) MT_entry]
    | None => []
    end.
Proof.
  intros H. unfold start_move_to, delete_move_task, seq. rewrite H.
  cbn [conc_run conc_step caller_step nth_error callers cl_pc cl_target
       handle_var mem tasks next_id put_caller with_mem].
  change (pos_f (motor_all_off s)) with (pos_f s).
  destruct (T =? F32.to_uint8 (pos_f s));
    cbn [mem tasks with_mem app];
    (split;
     [ reflexivity
     | unfold motor_all_off, seq; fields; rewrite ?H; reflexivity ]).
Qed.

(** A task that runs from its first statement to its first [vTaskDelay]
    (or to its end) without being preempted does to the statics what the
    first turn of [move_task] does. *)
Lemma task_unpreempted (s : state) (tgt : Z) :
  set_move_task_handle None
    (mem (conc_run [Run_task 0; Run_task 0; Run_task 0]
            (mk_machine s (Some 0%nat) [mk_live 0 tgt MT_entry] [] 1)))
  = set_move_task_handle None (move_task tgt s).
Proof.
  unfold move_task, opening_loop, closing_loop, motor_drive_open,
    motor_drive_close.
  cbn [conc_run conc_step find tasks lt_id Nat.eqb task_step lt_pc lt_tgt
       mem].
  destruct (tgt >? F32.to_uint8 (pos_f s)); [|destruct (tgt <? _)].
  - cbn [task_at conc_step find tasks put_task lt_id Nat.eqb task_step
         lt_pc lt_tgt mem handle_var callers next_id].
    unfold seq.
    match goal with
    | |- context [opening_cond tgt ?b] => destruct (opening_cond tgt b)
    end.
    + cbn [task_at mem]. unfold opening_body, report_current_position, seq.
      destruct (negb _); reflexivity.
    + cbn [task_finish mem]. unfold move_task_finish,
        report_current_position, seq.
      destruct (negb _); reflexivity.
  - cbn [task_at conc_step find tasks put_task lt_id Nat.eqb task_step
         lt_pc lt_tgt mem handle_var callers next_id].
    unfold seq.
    match goal with
    | |- context [closing_cond tgt ?b] => destruct (closing_cond tgt b)
    end.
    + cbn [task_at mem]. unfold closing_body, report_current_position, seq.
      destruct (negb _); reflexivity.
    + cbn [task_finish mem]. unfold move_task_finish,
        report_current_position, seq.
      destruct (negb _); reflexivity.
  - cbn [task_finish conc_step find tasks without_task filter lt_id Nat.eqb
         negb mem].
    reflexivity.
Qed.

